(** * Aircraft map viewer: the gateway route and the viewport tracker

    A shallow embedding of [src/app/api/states/route.ts] (the gateway's [GET]
    handler) and of [src/app/page.tsx] (the tracker's [fetchData], its two
    callers and the accessors of the icon layer), followed by the properties
    of the specification that concern them.

    The handlers are [async] functions that talk to the network, write to the
    console and replace a piece of component state.  They are embedded in a
    state-and-exception monad: the state records what was requested, logged
    and stored, the exception part carries JavaScript's [throw].  What the
    network answers is an argument of each handler.  A handler is run from
    its call to its return in one piece: what other handlers do while it
    waits for the network is not part of the embedding. *)

From Stdlib Require Import ZArith List String Ascii Bool Lia.
From Stdlib Require Import Floats.SpecFloat DecimalString.
From Stdlib Require Import Permutation.
Import ListNotations.
Local Open Scope string_scope.

(** ** JavaScript numbers

    A JavaScript number is an IEEE 754 binary64 value.  [spec_float] with a
    53 bit mantissa and [emax = 1024] is that format; its operations are
    plain functions, so they can be run and reasoned about. *)
Module Num.

Definition number : Type := spec_float.

Definition prec : Z := 53.
Definition emax : Z := 1024.

(** The number an integer literal of the source denotes. *)
Definition of_Z (z : Z) : number := binary_normalize prec emax z 0 false.

(** Unary [-] and binary [+] on numbers. *)
Definition neg (x : number) : number := SFopp x.
Definition add (x y : number) : number := SFadd prec emax x y.

(** [x < y] and [x === y] on numbers; both are false when either side is NaN,
    and [-0 === 0] is true. *)
Definition lt (x y : number) : bool := SFltb x y.
Definition le (x y : number) : bool := SFleb x y.
Definition eq (x y : number) : bool := SFeqb x y.

Definition is_nan (x : number) : bool :=
  match x with S754_nan => true | _ => false end.

Definition is_zero (x : number) : bool :=
  match x with S754_zero _ => true | _ => false end.

End Num.

Definition number : Type := Num.number.

(** ** JavaScript values

    The values that reach the code: what [JSON.parse] builds (null, booleans,
    numbers, strings, arrays, objects), and [undefined], which a missing
    property or an index past the end reads as.  TypeScript's interfaces are
    erased when the program runs, so a parsed body is one of these whatever
    its declared type. *)
#[warnings="-register-all"]
Inductive value : Type :=
| VUndefined
| VNull
| VBool (b : bool)
| VNum (n : number)
| VStr (s : string)
| VArr (elems : list value)
| VObj (props : list (string * value)).

(** What a [throw] carries: an instance of [Error] (its name and message), or
    any other value. *)
Inductive thrown : Type :=
| ErrorObject (name message : string)
| ThrownValue (v : value).

Inductive result (A : Type) : Type :=
| Ok (a : A)
| Throw (e : thrown).
Arguments Ok {A} a.
Arguments Throw {A} e.

Module Js.

(** ToBoolean: [undefined], [null], [false], [0], [-0], [NaN] and the empty
    string are falsy, everything else is truthy. *)
Definition truthy (v : value) : bool :=
  match v with
  | VUndefined | VNull => false
  | VBool b => b
  | VNum n => negb (Num.is_zero n || Num.is_nan n)
  | VStr s => negb (String.eqb s "")
  | VArr _ | VObj _ => true
  end.

(** [a || b] *)
Definition or (a b : value) : value := if truthy a then a else b.

(** [a ?? b] *)
Definition coalesce (a b : value) : value :=
  match a with
  | VUndefined | VNull => b
  | _ => a
  end.

(** [v !== null] and [v !== undefined] *)
Definition not_null (v : value) : bool :=
  match v with VNull => false | _ => true end.

Definition not_undefined (v : value) : bool :=
  match v with VUndefined => false | _ => true end.

(** The own property [key] of an object.  A parsed object has each key once,
    so which of two equal keys is found does not matter. *)
Fixpoint lookup (key : string) (props : list (string * value)) : option value :=
  match props with
  | [] => None
  | (k, v) :: rest => if String.eqb k key then Some v else lookup key rest
  end.

Definition or_undefined (o : option value) : value :=
  match o with Some v => v | None => VUndefined end.

Definition index_key (i : nat) : string :=
  NilEmpty.string_of_uint (Nat.to_uint i).

Definition cannot_read (what : string) : thrown :=
  ErrorObject "TypeError" ("Cannot read properties of " ++ what).

(** [v[i]] for an integer literal [i]: reading from [null] or [undefined]
    throws a [TypeError]; an array yields its element, a string its
    character, an object the property named by the decimal digits of [i];
    whatever is not there reads as [undefined]. *)
Definition get_index (v : value) (i : nat) : result value :=
  match v with
  | VUndefined => Throw (cannot_read "undefined")
  | VNull => Throw (cannot_read "null")
  | VBool _ | VNum _ => Ok VUndefined
  | VStr s =>
      Ok (match String.get i s with
          | Some c => VStr (String c EmptyString)
          | None => VUndefined
          end)
  | VArr elems => Ok (or_undefined (nth_error elems i))
  | VObj props => Ok (or_undefined (lookup (index_key i) props))
  end.

(** [v.name] for a name that no prototype defines (such as [states]): only an
    object can hold it. *)
Definition get_prop (v : value) (name : string) : result value :=
  match v with
  | VUndefined => Throw (cannot_read "undefined")
  | VNull => Throw (cannot_read "null")
  | VObj props => Ok (or_undefined (lookup name props))
  | _ => Ok VUndefined
  end.

(** ToNumber, as far as the embedding goes: the conversion of a string or of
    an object is not modelled ([None]). *)
Definition to_number (v : value) : option number :=
  match v with
  | VUndefined => Some S754_nan
  | VNull => Some (Num.of_Z 0)
  | VBool b => Some (Num.of_Z (if b then 1 else 0))
  | VNum n => Some n
  | VStr _ | VArr _ | VObj _ => None
  end.

End Js.

(** ** The monad of the handlers *)
Module Eff.

Definition M (S A : Type) : Type := S -> result A * S.

Definition ret {S A} (a : A) : M S A := fun s => (Ok a, s).

Definition bind {S A B} (m : M S A) (k : A -> M S B) : M S B :=
  fun s =>
    match m s with
    | (Ok a, s') => k a s'
    | (Throw e, s') => (Throw e, s')
    end.

(** [try { body } catch (error) { handler }]: the state changes made before
    the throw stay. *)
Definition try_catch {S A} (body : M S A) (handler : thrown -> M S A) : M S A :=
  fun s =>
    match body s with
    | (Ok a, s') => (Ok a, s')
    | (Throw e, s') => handler e s'
    end.

Definition lift {S A} (r : result A) : M S A := fun s => (r, s).

Definition modify {S} (f : S -> S) : M S unit := fun s => (Ok tt, f s).

End Eff.

Declare Scope eff_scope.
Delimit Scope eff_scope with eff.
Notation "x <- m ;; k" := (Eff.bind m (fun x => k))
  (at level 100, m at next level, right associativity) : eff_scope.
Notation "m ;; k" := (Eff.bind m (fun _ => k))
  (at level 100, right associativity) : eff_scope.

(** ** What [fetch] resolves to

    [ok] is, as the Fetch standard defines it, a status in 200..299.
    [json] is what [response.json()] gives: the parsed body, or the error it
    throws on a body that does not parse. *)
Module Fetch.

Record Response : Type := {
  status : Z;
  statusText : string;
  json : result value
}.

Definition ok (r : Response) : bool :=
  (200 <=? status r)%Z && (status r <=? 299)%Z.

(** The network seen from a handler: [fetch(url)] resolves to a response or
    rejects. *)
Definition network : Type := string -> result Response.

End Fetch.

(** ** The gateway: [GET] of [src/app/api/states/route.ts] *)
Module Gateway.

(** [request.nextUrl.searchParams]: the query's name/value pairs in order;
    [get] returns the first value of a name, or [null]. *)
Definition URLSearchParams : Type := list (string * string).

Fixpoint get (name : string) (params : URLSearchParams) : option string :=
  match params with
  | [] => None
  | (k, v) :: rest => if String.eqb k name then Some v else get name rest
  end.

(** A [string | null] inside a template literal. *)
Definition interpolate (v : option string) : string :=
  match v with Some s => s | None => "null" end.

Definition openSkyURL (lamin lomin lamax lomax : option string) : string :=
  "https://opensky-network.org/api/states/all?lamin=" ++ interpolate lamin
  ++ "&lomin=" ++ interpolate lomin
  ++ "&lamax=" ++ interpolate lamax
  ++ "&lomax=" ++ interpolate lomax.

(** What the handler returns: a status and a body.  The body travels as JSON
    text; it is kept here as the value that text denotes, which is what a
    reader of the response parses. *)
Record NextResponse : Type := {
  status : Z;
  body : value
}.

(** The properties of an object as [JSON.stringify] writes them, [w] writing
    the values: a property whose value is [undefined] is left out, the others
    keep their order. *)
Definition written_properties (w : value -> value)
  : list (string * value) -> list (string * value) :=
  fix properties ps :=
    match ps with
    | [] => []
    | (k, x) :: rest =>
        match x with
        | VUndefined => properties rest
        | _ => (k, w x) :: properties rest
        end
    end.

(** [JSON.stringify] read back.  The text has no way to write [-0], an
    infinity or NaN: the first is written [0], the others [null].  Inside an
    array [undefined] is written [null].  Every other number, being written
    with the shortest digits that read back to it, and every string
    survives. *)
Fixpoint written (v : value) : value :=
  match v with
  | VUndefined => VNull
  | VNull => VNull
  | VBool b => VBool b
  | VNum n =>
      match n with
      | S754_zero _ => VNum (S754_zero false)
      | S754_finite _ _ _ => VNum n
      | S754_infinity _ | S754_nan => VNull
      end
  | VStr s => VStr s
  | VArr elems => VArr (List.map written elems)
  | VObj props => VObj (written_properties written props)
  end.

(** Serialising the body: [undefined] itself has no JSON text, and that
    throws. *)
Definition serialise (b : value) : result value :=
  match b with
  | VUndefined =>
      Throw (ErrorObject "TypeError" "Value is not JSON serializable")
  | _ => Ok (written b)
  end.

(** The statuses that go with no body. *)
Definition null_body_status (s : Z) : bool :=
  (s =? 101)%Z || (s =? 103)%Z || (s =? 204)%Z || (s =? 205)%Z
  || (s =? 304)%Z.

(** [NextResponse.json(body, { status })], the status being 200 when left
    out.  It builds a [Response] from the serialised body, and building one
    throws a [RangeError] for a status outside 200..599 and a [TypeError]
    for a body together with a status that goes with none. *)
Definition NextResponse_json (b : value) (init : option Z)
  : result NextResponse :=
  match serialise b with
  | Throw e => Throw e
  | Ok text =>
      let s := match init with Some s => s | None => 200%Z end in
      if negb ((200 <=? s)%Z && (s <=? 599)%Z) then
        Throw (ErrorObject "RangeError"
                 "status must be in the range of 200 to 599, inclusive.")
      else if null_body_status s then
        Throw (ErrorObject "TypeError"
                 "Response constructor: Invalid response status code")
      else Ok {| status := s; body := text |}
  end.

Definition error_body (message : string) : value :=
  VObj [("error", VStr message)].

(** The state of a run: the upstream URLs requested, oldest first. *)
Definition trace : Type := list string.

Definition fetch (net : Fetch.network) (url : string)
  : Eff.M trace Fetch.Response :=
  fun t => (net url, (t ++ [url])%list).

Definition GET (net : Fetch.network) (request : URLSearchParams)
  : Eff.M trace NextResponse :=
  let lamin := get "lamin" request in
  let lomin := get "lomin" request in
  let lamax := get "lamax" request in
  let lomax := get "lomax" request in
  let url := openSkyURL lamin lomin lamax lomax in
  Eff.try_catch
    (response <- fetch net url ;;
     if negb (Fetch.ok response) then
       Eff.lift (NextResponse_json
                   (error_body ("Error fetching from OpenSky Network: "
                                ++ Fetch.statusText response))
                   (Some (Fetch.status response)))
     else
       data <- Eff.lift (Fetch.json response) ;;
       Eff.lift (NextResponse_json data None))%eff
    (fun error =>
       let errorMessage :=
         match error with
         | ErrorObject _ message => message
         | ThrownValue _ => "Unknown error occurred"
         end in
       Eff.lift (NextResponse_json
                   (error_body ("Internal Server Error: " ++ errorMessage))
                   (Some 500%Z))).

End Gateway.

(** ** Sequencing in [result], for the callbacks that touch no state *)
Module Res.

Definition bind {A B} (r : result A) (k : A -> result B) : result B :=
  match r with
  | Ok a => k a
  | Throw e => Throw e
  end.

End Res.

Declare Scope res_scope.
Delimit Scope res_scope with res.
Notation "x <- m ;; k" := (Res.bind m (fun x => k))
  (at level 100, m at next level, right associativity) : res_scope.

Module Arr.

(** [Array.prototype.filter] and [Array.prototype.map] with a callback that
    may throw: elements are visited in order and the first throw ends the
    call. *)
Fixpoint filter {A} (f : A -> result bool) (l : list A) : result (list A) :=
  match l with
  | [] => Ok []
  | x :: rest =>
      (b <- f x ;;
       rest' <- filter f rest ;;
       Ok (if b then x :: rest' else rest'))%res
  end.

Fixpoint map {A B} (f : A -> result B) (l : list A) : result (list B) :=
  match l with
  | [] => Ok []
  | x :: rest =>
      (y <- f x ;;
       rest' <- map f rest ;;
       Ok (y :: rest'))%res
  end.

End Arr.

(** ** The tracker: [fetchData] of [src/app/page.tsx] and its callers *)
Module Tracker.

(** An element of [aircraftData].  Each field holds what the mapping callback
    stored in it. *)
Record AircraftData : Type := {
  icao24 : value;
  callsign : value;
  origin_country : value;
  time_position : value;
  last_contact : value;
  longitude : value;
  latitude : value;
  baro_altitude : value;
  on_ground : value;
  velocity : value;
  true_track : value;
  vertical_rate : value;
  sensors : value;
  geo_altitude : value;
  squawk : value;
  spi : value;
  position_source : value;
  category : value
}.

(** What the map widget answers when asked. *)
Record LatLng : Type := { lat : number; lng : number }.

Record LatLngBounds : Type := {
  getNorthEast : LatLng;
  getSouthWest : LatLng
}.

Record Map : Type := {
  getZoom : option number;
  getBounds : option LatLngBounds
}.

Record BoundingBox : Type := {
  lamin : number;
  lomin : number;
  lamax : number;
  lomax : number
}.

Inductive logged : Type :=
| LogText (s : string)
| LogThrown (e : thrown).

(** The state a fetch cycle works on: the [aircraftData] of the component,
    the URLs requested and the lines written with [console.error], oldest
    first. *)
Record State : Type := {
  aircraftData : list AircraftData;
  requests : list string;
  console : list (string * logged)
}.

Definition initial : State :=
  {| aircraftData := []; requests := []; console := [] |}.

Definition setAircraftData (data : list AircraftData) : Eff.M State unit :=
  Eff.modify (fun s =>
    {| aircraftData := data; requests := requests s; console := console s |}).

Definition console_error (label : string) (arg : logged) : Eff.M State unit :=
  Eff.modify (fun s =>
    {| aircraftData := aircraftData s;
       requests := requests s;
       console := (console s ++ [(label, arg)])%list |}).

Definition fetch (net : Fetch.network) (url : string)
  : Eff.M State Fetch.Response :=
  fun s =>
    (net url,
     {| aircraftData := aircraftData s;
        requests := (requests s ++ [url])%list;
        console := console s |}).

(** The callback of [.filter]:
    [state[5] !== null && state[6] !== null
     && state[5] !== undefined && state[6] !== undefined]. *)
Definition has_position (state : value) : result bool :=
  (a <- Js.get_index state 5 ;;
   if negb (Js.not_null a) then Ok false else
   b <- Js.get_index state 6 ;;
   if negb (Js.not_null b) then Ok false else
   c <- Js.get_index state 5 ;;
   if negb (Js.not_undefined c) then Ok false else
   d <- Js.get_index state 6 ;;
   Ok (Js.not_undefined d))%res.

(** The callback of [.map]. *)
Definition to_record (state : value) : result AircraftData :=
  (s0 <- Js.get_index state 0 ;;
   s1 <- Js.get_index state 1 ;;
   s2 <- Js.get_index state 2 ;;
   s3 <- Js.get_index state 3 ;;
   s4 <- Js.get_index state 4 ;;
   s5 <- Js.get_index state 5 ;;
   s6 <- Js.get_index state 6 ;;
   s7 <- Js.get_index state 7 ;;
   s8 <- Js.get_index state 8 ;;
   s9 <- Js.get_index state 9 ;;
   s10 <- Js.get_index state 10 ;;
   s11 <- Js.get_index state 11 ;;
   s12 <- Js.get_index state 12 ;;
   s13 <- Js.get_index state 13 ;;
   s14 <- Js.get_index state 14 ;;
   s15 <- Js.get_index state 15 ;;
   s16 <- Js.get_index state 16 ;;
   s17 <- Js.get_index state 17 ;;
   Ok {| icao24 := s0;
         callsign := Js.coalesce s1 VUndefined;
         origin_country := s2;
         time_position := Js.coalesce s3 VUndefined;
         last_contact := s4;
         longitude := s5;
         latitude := s6;
         baro_altitude := Js.coalesce s7 VUndefined;
         on_ground := s8;
         velocity := Js.coalesce s9 VUndefined;
         true_track := Js.coalesce s10 (VNum (Num.of_Z 0));
         vertical_rate := Js.coalesce s11 VUndefined;
         sensors := Js.coalesce s12 VUndefined;
         geo_altitude := Js.coalesce s13 VUndefined;
         squawk := Js.coalesce s14 VUndefined;
         spi := s15;
         position_source := s16;
         category := Js.coalesce s17 (VNum (Num.of_Z 0)) |})%res.

(** [(data.states || []).filter(...).map(...)]: calling [.filter] on anything
    but an array throws, no JSON value being a function. *)
Definition format (data : value) : result (list AircraftData) :=
  (states <- Js.get_prop data "states" ;;
   match Js.or states (VArr []) with
   | VArr elems =>
       kept <- Arr.filter has_position elems ;;
       Arr.map to_record kept
   | _ => Throw (ErrorObject "TypeError" "filter is not a function")
   end)%res.

(** [currentZoom === undefined || currentZoom < 7] *)
Definition zoom_too_low (currentZoom : option number) : bool :=
  match currentZoom with
  | None => true
  | Some z => Num.lt z (Num.of_Z 7)
  end.

Section Handlers.

(** How a number prints inside a template literal (the language's
    Number-to-string conversion, which the source relies on and does not
    define). *)
Variable number_to_string : number -> string.

Definition states_url (mapBounds : BoundingBox) : string :=
  "/api/states?lamin=" ++ number_to_string (lamin mapBounds)
  ++ "&lomin=" ++ number_to_string (lomin mapBounds)
  ++ "&lamax=" ++ number_to_string (lamax mapBounds)
  ++ "&lomax=" ++ number_to_string (lomax mapBounds).

Definition fetchData (net : Fetch.network) (currentMap : option Map)
  : Eff.M State unit :=
  match currentMap with
  | None => Eff.ret tt
  | Some currentMap =>
      let currentZoom := getZoom currentMap in
      if zoom_too_low currentZoom then setAircraftData []
      else
        match getBounds currentMap with
        | None => Eff.ret tt
        | Some bounds =>
            let ne := getNorthEast bounds in
            let sw := getSouthWest bounds in
            let mapBounds :=
              {| lamin := lat sw; lomin := lng sw;
                 lamax := lat ne; lomax := lng ne |} in
            Eff.try_catch
              (response <- fetch net (states_url mapBounds) ;;
               if negb (Fetch.ok response) then
                 console_error "Failed to fetch aircraft data:"
                               (LogText (Fetch.statusText response)) ;;
                 setAircraftData []
               else
                 data <- Eff.lift (Fetch.json response) ;;
                 formattedData <- Eff.lift (format data) ;;
                 setAircraftData formattedData)%eff
              (fun error =>
                 (console_error "Error fetching aircraft data:"
                                (LogThrown error) ;;
                  setAircraftData [])%eff)
        end
  end.

(** [onMapLoad] receives the widget, keeps it with [setMap] and starts the
    first cycle; [onMapIdle] starts one when the [map] state is set.  The
    [map] state is an argument here: the widget as the handler finds it,
    answering for that moment. *)
Definition onMapLoad (net : Fetch.network) (currentMap : Map)
  : Eff.M State unit :=
  fetchData net (Some currentMap).

Definition onMapIdle (net : Fetch.network) (map : option Map)
  : Eff.M State unit :=
  match map with
  | Some m => fetchData net (Some m)
  | None => Eff.ret tt
  end.

End Handlers.

End Tracker.

(** ** The icon layer: the accessors given to [IconLayer] *)
Module Renderer.

Import Tracker.

(** The sizes and colour channels are integer literals that are handed to the
    layer as they are; they are kept as integers. *)
Definition sizeScale : Z := 15.

(** [d => [d.longitude || 0, d.latitude || 0, d.baro_altitude || 0]] *)
Definition getPosition (d : AircraftData) : value * value * value :=
  (Js.or (longitude d) (VNum (Num.of_Z 0)),
   Js.or (latitude d) (VNum (Num.of_Z 0)),
   Js.or (baro_altitude d) (VNum (Num.of_Z 0))).

(** [d => d.on_ground ? 10 : 20] *)
Definition getSize (d : AircraftData) : Z :=
  if Js.truthy (on_ground d) then 10%Z else 20%Z.

(** [d => d.on_ground ? [255,0,0, 200] : [0,255,0, 200]] *)
Definition getColor (d : AircraftData) : list Z :=
  if Js.truthy (on_ground d) then [255; 0; 0; 200]%Z else [0; 255; 0; 200]%Z.

(** [d => -(d.true_track || 0) + 90]; [None] where ToNumber is not
    modelled. *)
Definition getAngle (d : AircraftData) : option number :=
  match Js.to_number (Js.or (true_track d) (VNum (Num.of_Z 0))) with
  | Some n => Some (Num.add (Num.neg n) (Num.of_Z 90))
  | None => None
  end.

End Renderer.

(** ** The mirrored view state and the [bounds_changed] listeners *)
Module View.

(** The part of the map widget the listeners ask. *)
Record Map : Type := {
  getZoom : option number;
  getCenter : option Tracker.LatLng
}.

Record ViewState : Type := {
  longitude : number;
  latitude : number;
  zoom : number;
  pitch : number;
  bearing : number
}.

(** The number a decimal literal [m / 10^k] denotes: the binary64 value
    nearest to it, which the correctly rounded quotient of the two integers
    is. *)
Definition decimal (m : Z) (k : nat) : number :=
  SFdiv Num.prec Num.emax (Num.of_Z m) (Num.of_Z (10 ^ Z.of_nat k)).

(** [initialCenter]: Tokyo Station. *)
Definition initialCenter : Tracker.LatLng :=
  {| Tracker.lat := decimal 35681236 6; Tracker.lng := decimal 139767125 6 |}.

(** The initial value of the [viewState] state. *)
Definition initialViewState : ViewState :=
  {| longitude := Tracker.lng initialCenter;
     latitude := Tracker.lat initialCenter;
     zoom := Num.of_Z 7;
     pitch := Num.of_Z 0;
     bearing := Num.of_Z 0 |}.

(** The [onBoundsChanged] prop of [GoogleMap]: with the [map] state set, a
    defined zoom and a centre, the view state is replaced; otherwise it is
    left alone. *)
Definition onBoundsChanged (map : option Map) (viewState : ViewState)
  : ViewState :=
  match map with
  | None => viewState
  | Some map =>
      let newZoom := getZoom map in
      let newCenter := getCenter map in
      match newZoom, newCenter with
      | Some newZoom, Some newCenter =>
          {| longitude := Tracker.lng newCenter;
             latitude := Tracker.lat newCenter;
             zoom := newZoom;
             pitch := Num.of_Z 0;
             bearing := Num.of_Z 0 |}
      | _, _ => viewState
      end
  end.

(** The listener the effect registers with [map.addListener] when the [map]
    state is set. *)
Definition bounds_changed_listener (map : Map) (viewState : ViewState)
  : ViewState :=
  let newZoom := getZoom map in
  let newCenter := getCenter map in
  match newZoom, newCenter with
  | Some newZoom, Some newCenter =>
      {| longitude := Tracker.lng newCenter;
         latitude := Tracker.lat newCenter;
         zoom := newZoom;
         pitch := Num.of_Z 0;
         bearing := Num.of_Z 0 |}
  | _, _ => viewState
  end.

End View.

(** ** What [HomePage] returns *)
Module Page.

(** The three things the component renders: the load error with its message,
    the loading notice, or the overlay over the map, fed with the aircraft
    set and the view state. *)
Inductive view : Type :=
| LoadErrorMessage (message : string)
| LoadingMessage
| MapView (data : list Tracker.AircraftData) (viewState : View.ViewState)
          (zoom : number) (center : Tracker.LatLng).

(** [process.env.NEXT_PUBLIC_Maps_API_KEY]: a string or [undefined]. *)
Definition env (v : option string) : value :=
  match v with Some s => VStr s | None => VUndefined end.

(** The returns of [HomePage]: [loadError] is the [message] of the load
    error, if there is one. *)
Definition render (loadError : option string) (isLoaded : bool)
    (API_KEY : option string)
    (aircraftData : list Tracker.AircraftData) (viewState : View.ViewState)
  : view :=
  match loadError with
  | Some message => LoadErrorMessage message
  | None =>
      if negb isLoaded || negb (Js.truthy (env API_KEY)) then LoadingMessage
      else MapView aircraftData viewState (View.zoom viewState)
                   View.initialCenter
  end.

End Page.

(** ** Handlers one after another *)
Module Component.

(** A call of one of the two handlers that start a cycle, with the network as
    it answers during that call. *)
Inductive event : Type :=
| MapLoad (net : Fetch.network) (currentMap : Tracker.Map)
| MapIdle (net : Fetch.network) (map : option Tracker.Map).

Section Run.

Variable number_to_string : number -> string.

Definition handle (e : event) : Eff.M Tracker.State unit :=
  match e with
  | MapLoad net currentMap => Tracker.onMapLoad number_to_string net currentMap
  | MapIdle net map => Tracker.onMapIdle number_to_string net map
  end.

(** The handlers of [events] run in order; a throw would end the run. *)
Fixpoint run (events : list event) : Eff.M Tracker.State unit :=
  match events with
  | [] => Eff.ret tt
  | e :: rest => (handle e ;; run rest)%eff
  end.

End Run.

End Component.

(** * Vocabulary of the properties *)

(** [needle] occurs in [hay]. *)
Definition occurs_in (needle hay : string) : Prop :=
  exists pre post, hay = pre ++ needle ++ post.

(** The upstream URL a gateway request leads to. *)
Definition upstream_url (request : Gateway.URLSearchParams) : string :=
  Gateway.openSkyURL
    (Gateway.get "lamin" request) (Gateway.get "lomin" request)
    (Gateway.get "lamax" request) (Gateway.get "lomax" request).

(** [x === y] holds. *)
Definition same_number (x y : number) : Prop := Num.eq x y = true.

(** A record has a position: neither coordinate is [null] or [undefined]. *)
Definition positioned (d : Tracker.AircraftData) : Prop :=
  Tracker.longitude d <> VNull /\ Tracker.longitude d <> VUndefined
  /\ Tracker.latitude d <> VNull /\ Tracker.latitude d <> VUndefined.

(** A state vector whose longitude (index 5) or latitude (index 6) is
    [null]. *)
Definition lacks_position (state : value) : Prop :=
  Js.get_index state 5 = Ok VNull \/ Js.get_index state 6 = Ok VNull.

(** The values [JSON.parse] can build: no [undefined] and no NaN, at any
    depth. *)
Fixpoint is_json (v : value) : bool :=
  match v with
  | VUndefined => false
  | VNull | VBool _ | VStr _ => true
  | VNum n => negb (Num.is_nan n)
  | VArr elems => forallb is_json elems
  | VObj props =>
      forallb (fun kv : string * value => let (_, x) := kv in is_json x) props
  end.

(** Induction on values *)
Section Induction.

Variable P : value -> Prop.
Hypothesis P_undefined : P VUndefined.
Hypothesis P_null : P VNull.
Hypothesis P_bool : forall b, P (VBool b).
Hypothesis P_num : forall n, P (VNum n).
Hypothesis P_str : forall s, P (VStr s).
Hypothesis P_arr : forall elems, Forall P elems -> P (VArr elems).
Hypothesis P_obj :
  forall props, Forall (fun kv => P (snd kv)) props -> P (VObj props).


End Induction.


(** Whatever number [v] is, it is not NaN. *)
Definition not_nan (v : value) : Prop :=
  forall n, v = VNum n -> Num.is_nan n = false.

(** [v] is [null] or [undefined]. *)
Definition nullish (v : value) : Prop := v = VNull \/ v = VUndefined.

(** The bounding box the tracker derives from the widget's bounds. *)
Definition box_of (bounds : Tracker.LatLngBounds) : Tracker.BoundingBox :=
  {| Tracker.lamin := Tracker.lat (Tracker.getSouthWest bounds);
     Tracker.lomin := Tracker.lng (Tracker.getSouthWest bounds);
     Tracker.lamax := Tracker.lat (Tracker.getNorthEast bounds);
     Tracker.lomax := Tracker.lng (Tracker.getNorthEast bounds) |}.

(** Colours [[r, g, b, a]] in which red, respectively green, is the strongest
    channel. *)
Definition red_family (c : list Z) : Prop :=
  exists r g b a, c = [r; g; b; a] /\ (g < r)%Z /\ (b < r)%Z.

Definition green_family (c : list Z) : Prop :=
  exists r g b a, c = [r; g; b; a] /\ (r < g)%Z /\ (b < g)%Z.

(** The four parameter names the gateway reads. *)
Definition box_names : list string := ["lamin"; "lomin"; "lamax"; "lomax"].

(** A status that [response.ok] accepts. *)
Definition ok_status (status : Z) : bool :=
  (200 <=? status)%Z && (status <=? 299)%Z.

(** The same number, bit for bit (unlike [===], which merges the two zeros
    and rejects NaN). *)
Definition number_eqb (x y : number) : bool :=
  match x, y with
  | S754_zero s, S754_zero s' => Bool.eqb s s'
  | S754_infinity s, S754_infinity s' => Bool.eqb s s'
  | S754_nan, S754_nan => true
  | S754_finite s m e, S754_finite s' m' e' =>
      Bool.eqb s s' && Pos.eqb m m' && Z.eqb e e'
  | _, _ => false
  end.

(** The values JavaScript counts as false: [undefined], [null], [false], the
    two zeros, NaN and the empty string. *)
Definition falsy (v : value) : Prop :=
  v = VUndefined \/ v = VNull \/ v = VBool false
  \/ (exists s, v = VNum (S754_zero s)) \/ v = VNum S754_nan \/ v = VStr "".

(** A value the layer can place an icon with: not [undefined], not [null],
    not NaN. *)
Definition usable (v : value) : Prop :=
  v <> VUndefined /\ v <> VNull /\ v <> VNum S754_nan.

(** The view state after the [bounds_changed] events [maps], each with the
    [map] state as the listener finds it. *)
Definition after_bounds_changes (maps : list (option View.Map))
    (viewState : View.ViewState) : View.ViewState :=
  fold_left (fun v map => View.onBoundsChanged map v) maps viewState.

(** A state vector that can be indexed: anything but [null] and
    [undefined]. *)
Definition indexable (state : value) : Prop :=
  state <> VNull /\ state <> VUndefined.

(** The filter's callback as a plain test: it returned [true]. *)
Definition passes (state : value) : bool :=
  match Tracker.has_position state with Ok true => true | _ => false end.

(** The whole-degree headings of a compass, 0 to 360. *)
Definition whole_degrees : list Z := List.map Z.of_nat (seq 0 361).

(** For a whole-degree heading [h], the source's [-(h) + 90] is the number
    [90 - h], and [h] is not NaN. *)
Definition angle_exact_at (h : Z) : bool :=
  negb (Num.is_nan (Num.of_Z h))
  && number_eqb (Num.add (Num.neg (Num.of_Z h)) (Num.of_Z 90))
                (Num.of_Z (90 - h)).

(** ** Sample inputs *)
Module Sample.

Import Tracker.

Definition num (z : Z) : value := VNum (Num.of_Z z).

(** A stand-in for the Number-to-string conversion; nothing proved below
    depends on which function it is. *)
Definition number_to_string (n : number) : string :=
  match n with
  | S754_zero _ => "0"
  | S754_nan => "NaN"
  | S754_infinity false => "Infinity"
  | S754_infinity true => "-Infinity"
  | S754_finite _ _ _ => "1"
  end.

Definition bounds : LatLngBounds :=
  {| getNorthEast := {| lat := Num.of_Z 20; lng := Num.of_Z 20 |};
     getSouthWest := {| lat := Num.of_Z 10; lng := Num.of_Z 10 |} |}.

Definition map_at (zoom : Z) : Map :=
  {| getZoom := Some (Num.of_Z zoom); getBounds := Some bounds |}.

Definition map_without_zoom : Map :=
  {| getZoom := None; getBounds := Some bounds |}.

Definition map_without_bounds : Map :=
  {| getZoom := Some (Num.of_Z 9); getBounds := None |}.

(** An airborne aircraft heading east, with every field present. *)
Definition airborne : value :=
  VArr [VStr "4b1814"; VStr "SWR123  "; VStr "Switzerland";
        num 1700000000; num 1700000000; num 139; num 35; num 10000;
        VBool false; num 250; num 90; num 0; VNull; num 10500;
        VStr "1000"; VBool false; num 0; num 3].

(** An aircraft on the ground, with no track and no category. *)
Definition parked : value :=
  VArr [VStr "86d6a4"; VNull; VStr "Japan";
        num 1700000000; num 1700000000; num 140; num 36; VNull;
        VBool true; VNull; VNull; VNull; VNull; VNull;
        VNull; VBool false; num 0].

(** An aircraft whose position is unknown. *)
Definition unlocated : value :=
  VArr [VStr "a00001"; VNull; VStr "United States";
        VNull; num 1700000000; VNull; VNull; VNull;
        VBool true; VNull; VNull; VNull; VNull; VNull;
        VNull; VBool false; num 0].

Definition states : list value := [airborne; unlocated; parked].

(** The records of the two located aircraft. *)
Definition airborne_record : AircraftData :=
  {| icao24 := VStr "4b1814"; callsign := VStr "SWR123  ";
     origin_country := VStr "Switzerland";
     time_position := num 1700000000; last_contact := num 1700000000;
     longitude := num 139; latitude := num 35; baro_altitude := num 10000;
     on_ground := VBool false; velocity := num 250; true_track := num 90;
     vertical_rate := num 0; sensors := VUndefined; geo_altitude := num 10500;
     squawk := VStr "1000"; spi := VBool false; position_source := num 0;
     category := num 3 |}.

Definition parked_record : AircraftData :=
  {| icao24 := VStr "86d6a4"; callsign := VUndefined;
     origin_country := VStr "Japan";
     time_position := num 1700000000; last_contact := num 1700000000;
     longitude := num 140; latitude := num 36; baro_altitude := VUndefined;
     on_ground := VBool true; velocity := VUndefined; true_track := num 0;
     vertical_rate := VUndefined; sensors := VUndefined;
     geo_altitude := VUndefined;
     squawk := VUndefined; spi := VBool false; position_source := num 0;
     category := num 0 |}.

Definition body : value :=
  VObj [("time", num 1700000000); ("states", VArr states)].

(** A body with a [null] between two well-formed states. *)
Definition holed_body : value :=
  VObj [("time", num 1700000000);
        ("states", VArr [airborne; VNull; parked])].

Definition answering (r : Fetch.Response) : Fetch.network := fun _ => Ok r.

Definition rejecting : Fetch.network :=
  fun _ => Throw (ErrorObject "TypeError" "fetch failed").

Definition with_body (b : value) : Fetch.Response :=
  {| Fetch.status := 200; Fetch.statusText := "OK"; Fetch.json := Ok b |}.

Definition unavailable : Fetch.Response :=
  {| Fetch.status := 503;
     Fetch.statusText := "Service Unavailable";
     Fetch.json := Throw (ErrorObject "SyntaxError" "Unexpected token") |}.

(** An upstream answer whose status goes with no body. *)
Definition not_modified : Fetch.Response :=
  {| Fetch.status := 304;
     Fetch.statusText := "Not Modified";
     Fetch.json :=
       Throw (ErrorObject "SyntaxError" "Unexpected end of JSON input") |}.



Definition unparseable : Fetch.Response :=
  {| Fetch.status := 200;
     Fetch.statusText := "OK";
     Fetch.json :=
       Throw (ErrorObject "SyntaxError" "Unexpected end of JSON input") |}.

(** A set left on display by an earlier cycle. *)
Definition stale : State :=
  {| aircraftData := [airborne_record];
     requests := ["/api/states?lamin=1&lomin=1&lamax=1&lomax=1"];
     console := [] |}.

(** The widget over Osaka at zoom 9, and the widget before it knows its
    centre. *)
Definition osaka : View.Map :=
  {| View.getZoom := Some (Num.of_Z 9);
     View.getCenter := Some {| lat := Num.of_Z 35; lng := Num.of_Z 135 |} |}.

Definition uncentred : View.Map :=
  {| View.getZoom := Some (Num.of_Z 3); View.getCenter := None |}.

Definition box_request : Gateway.URLSearchParams :=
  [("lamin", "10"); ("lomin", "10"); ("lamax", "20"); ("lomax", "20")].

Definition partial_request : Gateway.URLSearchParams :=
  [("lamin", "10"); ("lomax", "20")].

End Sample.

(** * Properties *)

(** ** Strings *)

Lemma append_assoc (a b c : string) : (a ++ b) ++ c = a ++ (b ++ c).
Proof.
  induction a as [|ch a IH]; simpl; [reflexivity | now rewrite IH].
Qed.

Lemma append_empty_r (a : string) : a ++ "" = a.
Proof.
  induction a as [|ch a IH]; simpl; [reflexivity | now rewrite IH].
Qed.

Lemma occurs_in_suffix (needle pre : string) : occurs_in needle (pre ++ needle).
Proof.
  exists pre, "". now rewrite append_empty_r.
Qed.

(** ** Numbers *)
Module NumFacts.

Lemma compare_antisym (x y : number) :
  SFcompare y x = option_map CompOpp (SFcompare x y).
Proof.
  destruct x as [sx|sx| |sx mx ex], y as [sy|sy| |sy my ey]; simpl;
    try reflexivity;
    try (destruct sx; reflexivity);
    try (destruct sy; reflexivity);
    try (destruct sx, sy; reflexivity).
  destruct sx, sy; simpl; try reflexivity;
    rewrite (Z.compare_antisym ex ey); destruct (ex ?= ey)%Z; simpl;
    try reflexivity;
    change (Pos.compare_cont Eq my mx)
      with (Pos.compare_cont (CompOpp Eq) my mx);
    rewrite <- (Pos.compare_cont_antisym mx my Eq);
    destruct (Pos.compare_cont Eq mx my); reflexivity.
Qed.

(** [x <= y] excludes [y < x]. *)
Lemma le_not_lt (x y : number) : Num.le x y = true -> Num.lt y x = false.
Proof.
  unfold Num.le, Num.lt, SFleb, SFltb. rewrite (compare_antisym x y).
  destruct (SFcompare x y) as [[| |]|]; simpl; congruence.
Qed.

(** [x === x] for every number but NaN. *)
Lemma eq_refl_not_nan (x : number) : Num.is_nan x = false -> Num.eq x x = true.
Proof.
  unfold Num.eq, SFeqb.
  destruct x as [s|s| |s m e]; simpl; intros H; try reflexivity.
  - destruct s; reflexivity.
  - discriminate.
  - destruct s; rewrite Z.compare_refl, Pos.compare_cont_refl; reflexivity.
Qed.

(** [x || 0] is a number that is [===] to [x], unless [x] is NaN. *)
Lemma or_zero_same (x : number) :
  Num.is_nan x = false ->
  exists x', Js.or (VNum x) (VNum (Num.of_Z 0)) = VNum x' /\ same_number x' x.
Proof.
  intros Hnan. unfold Js.or, Js.truthy. rewrite Hnan, orb_false_r.
  destruct (Num.is_zero x) eqn:Hz; simpl.
  - exists (Num.of_Z 0). split; [reflexivity|].
    destruct x; try discriminate. reflexivity.
  - exists x. split; [reflexivity|]. now apply eq_refl_not_nan.
Qed.

(** Negating [x || 0] and adding 90 gives [-x + 90]: the two zeros, which
    [||] merges, give the same sum. *)
Lemma neg_or_zero_add (x : number) :
  Num.is_nan x = false ->
  exists x',
    Js.to_number (Js.or (VNum x) (VNum (Num.of_Z 0))) = Some x'
    /\ Num.add (Num.neg x') (Num.of_Z 90) = Num.add (Num.neg x) (Num.of_Z 90).
Proof.
  intros Hnan. unfold Js.or, Js.truthy. rewrite Hnan, orb_false_r.
  destruct (Num.is_zero x) eqn:Hz; simpl.
  - exists (Num.of_Z 0). split; [reflexivity|].
    destruct x as [[|]| | |]; try discriminate; reflexivity.
  - exists x. split; reflexivity.
Qed.

End NumFacts.

(** ** Values *)
Module ValueFacts.



End ValueFacts.

(** ** The gateway *)
Module GatewayFacts.

Import Gateway.

#[local] Arguments NextResponse_json : simpl never.
#[local] Arguments error_body : simpl never.

Ltac run_GET request :=
  unfold GET, Eff.try_catch, Eff.bind, fetch, Eff.lift, Eff.ret;
  fold (upstream_url request).

(** *** What [NextResponse.json] does with the calls of the handler *)

Lemma json_error_500 message :
  NextResponse_json (error_body message) (Some 500%Z)
  = Ok {| status := 500; body := error_body message |}.
Proof. reflexivity. Qed.

(** An error body goes out with a status in 200..599 that allows a body. *)
Lemma json_error_relayed message s :
  (200 <= s <= 599)%Z -> null_body_status s = false ->
  NextResponse_json (error_body message) (Some s)
  = Ok {| status := s; body := error_body message |}.
Proof.
  intros Hs Hn. unfold NextResponse_json, serialise, error_body.
  replace ((200 <=? s)%Z && (s <=? 599)%Z) with true
    by (symmetry; apply andb_true_intro; split; apply Z.leb_le; lia).
  cbn [negb]. rewrite Hn. reflexivity.
Qed.

(** With any other status the call throws an [Error]. *)
Lemma json_error_refused message s :
  (s < 200)%Z \/ (599 < s)%Z \/ null_body_status s = true ->
  exists name text,
    NextResponse_json (error_body message) (Some s)
    = Throw (ErrorObject name text).
Proof.
  intros Hs. unfold NextResponse_json, serialise, error_body.
  destruct ((200 <=? s)%Z && (s <=? 599)%Z) eqn:Hr; cbn [negb].
  - apply andb_prop in Hr. destruct Hr as [H1 H2].
    apply Z.leb_le in H1, H2.
    destruct Hs as [Hs | [Hs | Hs]]; try lia.
    rewrite Hs. eauto.
  - eauto.
Qed.

(** Either way: the call answers with the status it was given, or throws an
    [Error]. *)
Lemma json_error_cases message s :
  NextResponse_json (error_body message) (Some s)
  = Ok {| status := s; body := error_body message |}
  \/ exists name text,
       NextResponse_json (error_body message) (Some s)
       = Throw (ErrorObject name text).
Proof.
  destruct ((200 <=? s)%Z && (s <=? 599)%Z) eqn:Hr.
  - apply andb_prop in Hr. destruct Hr as [H1 H2].
    apply Z.leb_le in H1, H2.
    destruct (null_body_status s) eqn:Hn.
    + right. apply json_error_refused. auto.
    + left. apply json_error_relayed; [lia | exact Hn].
  - right. apply json_error_refused.
    apply andb_false_iff in Hr. destruct Hr as [H | H];
      apply Z.leb_gt in H; [left | right; left]; lia.
Qed.

(** A status that is not OK and lies in 200..599 allows a body unless it is
    304. *)
Lemma not_ok_allows_body response :
  Fetch.ok response = false ->
  (200 <= Fetch.status response <= 599)%Z ->
  Fetch.status response <> 304%Z ->
  null_body_status (Fetch.status response) = false.
Proof.
  unfold Fetch.ok, null_body_status. intros Hok Hs Hn.
  apply andb_false_iff in Hok.
  repeat (apply orb_false_iff; split); apply Z.eqb_neq;
    destruct Hok as [H | H]; apply Z.leb_gt in H; lia.
Qed.

(** A body that can be serialised goes out with status 200, as written. *)
Lemma json_data data text :
  serialise data = Ok text ->
  NextResponse_json data None = Ok {| status := 200; body := text |}.
Proof.
  intros H. unfold NextResponse_json. now rewrite H.
Qed.

(** *** The paths of [GET] *)

(** Whatever the request and the network, [GET] asks upstream once, for
    [upstream_url request]. *)
Lemma GET_requests net request t :
  snd (GET net request t) = (t ++ [upstream_url request])%list.
Proof.
  run_GET request.
  destruct (net (upstream_url request)) as [response|e]; simpl;
    [|reflexivity].
  destruct (Fetch.ok response); simpl.
  - destruct (Fetch.json response) as [data|e]; simpl; [|reflexivity].
    destruct (NextResponse_json data None); reflexivity.
  - destruct (NextResponse_json _ (Some (Fetch.status response)));
      reflexivity.
Qed.

(** [GET] always returns a response: the [catch] covers every throw. *)
Lemma GET_returns net request t :
  exists r, fst (GET net request t) = Ok r.
Proof.
  run_GET request.
  destruct (net (upstream_url request)) as [response|e]; simpl;
    [|rewrite json_error_500; simpl; eauto].
  destruct (Fetch.ok response); simpl.
  - destruct (Fetch.json response) as [data|e]; simpl;
      [|rewrite json_error_500; simpl; eauto].
    destruct (NextResponse_json data None); simpl;
      rewrite ?json_error_500; simpl; eauto.
  - destruct (NextResponse_json _ (Some (Fetch.status response))); simpl;
      rewrite ?json_error_500; simpl; eauto.
Qed.

Lemma GET_not_ok net request t response :
  net (upstream_url request) = Ok response ->
  Fetch.ok response = false ->
  (200 <= Fetch.status response <= 599)%Z ->
  Fetch.status response <> 304%Z ->
  fst (GET net request t) =
    Ok {| status := Fetch.status response;
          body := error_body ("Error fetching from OpenSky Network: "
                              ++ Fetch.statusText response) |}.
Proof.
  intros Hnet Hok Hs Hn. run_GET request. rewrite Hnet; simpl.
  rewrite Hok; simpl.
  rewrite (json_error_relayed _ _ Hs (not_ok_allows_body _ Hok Hs Hn)).
  reflexivity.
Qed.

Lemma GET_not_relayed net request t response :
  net (upstream_url request) = Ok response ->
  Fetch.ok response = false ->
  (Fetch.status response < 200)%Z \/ (599 < Fetch.status response)%Z
  \/ Fetch.status response = 304%Z ->
  exists message,
    fst (GET net request t) =
      Ok {| status := 500;
            body := error_body ("Internal Server Error: " ++ message) |}.
Proof.
  intros Hnet Hok Hs. run_GET request. rewrite Hnet; simpl.
  rewrite Hok; simpl.
  destruct (json_error_refused
              ("Error fetching from OpenSky Network: "
               ++ Fetch.statusText response) (Fetch.status response))
    as (name & text & Hthrow).
  { destruct Hs as [Hs | [Hs | Hs]]; auto. right; right. now rewrite Hs. }
  simpl in Hthrow. rewrite Hthrow. simpl. rewrite json_error_500. simpl.
  eexists; reflexivity.
Qed.

Lemma GET_rejected net request t e :
  net (upstream_url request) = Throw e ->
  exists message,
    fst (GET net request t) =
      Ok {| status := 500;
            body := error_body ("Internal Server Error: " ++ message) |}.
Proof.
  intros Hnet. run_GET request. rewrite Hnet; simpl.
  rewrite json_error_500. simpl. eexists; reflexivity.
Qed.

Lemma GET_unparseable net request t response e :
  net (upstream_url request) = Ok response ->
  Fetch.ok response = true ->
  Fetch.json response = Throw e ->
  exists message,
    fst (GET net request t) =
      Ok {| status := 500;
            body := error_body ("Internal Server Error: " ++ message) |}.
Proof.
  intros Hnet Hok Hjson. run_GET request.
  rewrite Hnet; simpl. rewrite Hok; simpl.
  rewrite Hjson; simpl. rewrite json_error_500. simpl.
  eexists; reflexivity.
Qed.

Lemma GET_parsed net request t response data text :
  net (upstream_url request) = Ok response ->
  Fetch.ok response = true ->
  Fetch.json response = Ok data ->
  serialise data = Ok text ->
  fst (GET net request t) = Ok {| status := 200; body := text |}.
Proof.
  intros Hnet Hok Hjson Hser. run_GET request.
  rewrite Hnet; simpl. rewrite Hok; simpl. rewrite Hjson; simpl.
  now rewrite (json_data _ _ Hser).
Qed.

(** The claim C7 as the specification words it fails where the upstream
    status is one no response with a body can carry: at 304 the call that
    builds the answer throws, and the [catch] answers 500 without the status
    text. *)
Lemma C7_counterexample :
  Fetch.ok Sample.not_modified = false
  /\ fst (GET (Sample.answering Sample.not_modified) Sample.box_request [])
     = Ok {| status := 500;
             body :=
               error_body
                 ("Internal Server Error: "
                  ++ "Response constructor: Invalid response status code") |}
  /\ ~ (exists message,
          fst (GET (Sample.answering Sample.not_modified)
                   Sample.box_request [])
          = Ok {| status := Fetch.status Sample.not_modified;
                  body := VObj [("error", VStr message)] |}
          /\ occurs_in (Fetch.statusText Sample.not_modified) message).
Proof.
  assert (H : fst (GET (Sample.answering Sample.not_modified)
                       Sample.box_request [])
              = Ok {| status := 500;
                      body :=
                        error_body
                          ("Internal Server Error: "
                           ++ "Response constructor: "
                           ++ "Invalid response status code") |})
    by reflexivity.
  split; [reflexivity|]. split; [exact H|].
  intros (message & Hm & _). rewrite H in Hm. discriminate.
Qed.

(** C7 (amended). On a non-OK upstream response whose status a response with
    a body can carry (within 200..599 and not 304), the gateway answers with
    the upstream status and a body [{error: string}] whose message contains
    the upstream status text; on a non-OK upstream response with any other
    status, when [fetch] rejects, and when the body of an OK response does
    not parse, it answers 500 with a body [{error: string}]; and in every
    case it returns a response instead of throwing. *)
Theorem C7_gateway_failures net request t :
  (forall response,
      net (upstream_url request) = Ok response ->
      Fetch.ok response = false ->
      (200 <= Fetch.status response <= 599)%Z ->
      Fetch.status response <> 304%Z ->
      exists message,
        fst (GET net request t) =
          Ok {| status := Fetch.status response;
                body := VObj [("error", VStr message)] |}
        /\ occurs_in (Fetch.statusText response) message)
  /\ (forall response,
         net (upstream_url request) = Ok response ->
         Fetch.ok response = false ->
         (Fetch.status response < 200)%Z \/ (599 < Fetch.status response)%Z
         \/ Fetch.status response = 304%Z ->
         exists message,
           fst (GET net request t) =
             Ok {| status := 500; body := VObj [("error", VStr message)] |})
  /\ (forall e,
         net (upstream_url request) = Throw e
         \/ (exists response,
                net (upstream_url request) = Ok response
                /\ Fetch.ok response = true
                /\ Fetch.json response = Throw e) ->
         exists message,
           fst (GET net request t) =
             Ok {| status := 500; body := VObj [("error", VStr message)] |})
  /\ (exists r, fst (GET net request t) = Ok r).
Proof.
  split; [|split; [|split]].
  - intros response Hnet Hok Hs Hn.
    eexists. split.
    + rewrite (GET_not_ok _ _ _ _ Hnet Hok Hs Hn). reflexivity.
    + apply occurs_in_suffix.
  - intros response Hnet Hok Hs.
    destruct (GET_not_relayed _ _ t _ Hnet Hok Hs) as [m Hm].
    eexists. exact Hm.
  - intros e [Hnet | (response & Hnet & Hok & Hjson)].
    + destruct (GET_rejected _ _ t _ Hnet) as [m Hm]. eexists. exact Hm.
    + destruct (GET_unparseable _ _ t _ _ Hnet Hok Hjson) as [m Hm].
      eexists. exact Hm.
  - apply GET_returns.
Qed.

(** Upstream answers 503: the gateway answers 503 and names the status text.
    Upstream answers 304: the gateway answers 500. *)
Lemma C7_witness :
  (exists message,
      fst (GET (Sample.answering Sample.unavailable) Sample.box_request []) =
        Ok {| status := 503; body := VObj [("error", VStr message)] |}
      /\ occurs_in "Service Unavailable" message)
  /\ (exists message,
         fst (GET (Sample.answering Sample.not_modified)
                  Sample.box_request []) =
           Ok {| status := 500; body := VObj [("error", VStr message)] |}).
Proof.
  split.
  - apply (proj1 (C7_gateway_failures
                    (Sample.answering Sample.unavailable)
                    Sample.box_request [])
                 Sample.unavailable eq_refl eq_refl).
    + simpl. lia.
    + discriminate.
  - apply (proj1 (proj2 (C7_gateway_failures
                           (Sample.answering Sample.not_modified)
                           Sample.box_request []))
                 Sample.not_modified eq_refl eq_refl).
    right; right; reflexivity.
Defined.




(** C10. Whatever parameters are missing, the gateway issues its one upstream
    request, and the URL carries the text [null] as the value of each missing
    parameter. *)
Theorem C10_missing_parameters_become_null net request t :
  snd (GET net request t) = (t ++ [upstream_url request])%list
  /\ (get "lamin" request = None ->
      occurs_in "?lamin=null&" (upstream_url request))
  /\ (get "lomin" request = None ->
      occurs_in "&lomin=null&" (upstream_url request))
  /\ (get "lamax" request = None ->
      occurs_in "&lamax=null&" (upstream_url request))
  /\ (get "lomax" request = None ->
      exists pre, upstream_url request = pre ++ "&lomax=null").
Proof.
  split; [apply GET_requests|].
  unfold upstream_url, openSkyURL.
  repeat split; intros ->; simpl interpolate.
  - exists "https://opensky-network.org/api/states/all"; eexists.
    simpl. reflexivity.
  - exists ("https://opensky-network.org/api/states/all?lamin="
            ++ interpolate (get "lamin" request)); eexists.
    rewrite !append_assoc. simpl. reflexivity.
  - exists ("https://opensky-network.org/api/states/all?lamin="
            ++ interpolate (get "lamin" request)
            ++ "&lomin=" ++ interpolate (get "lomin" request)); eexists.
    rewrite !append_assoc. simpl. reflexivity.
  - exists ("https://opensky-network.org/api/states/all?lamin="
            ++ interpolate (get "lamin" request)
            ++ "&lomin=" ++ interpolate (get "lomin" request)
            ++ "&lamax=" ++ interpolate (get "lamax" request)).
    rewrite !append_assoc. simpl. reflexivity.
Qed.

(** A request that names only [lamin] and [lomax]. *)
Lemma C10_witness :
  snd (GET Sample.rejecting Sample.partial_request []) =
    ["https://opensky-network.org/api/states/all?lamin=10&lomin=null&lamax=null&lomax=20"]
  /\ occurs_in "&lomin=null&" (upstream_url Sample.partial_request)
  /\ occurs_in "&lamax=null&" (upstream_url Sample.partial_request).
Proof.
  pose proof (C10_missing_parameters_become_null
                Sample.rejecting Sample.partial_request [])
    as (Hreq & _ & Hlomin & Hlamax & _).
  split; [exact Hreq|].
  split; [exact (Hlomin eq_refl) | exact (Hlamax eq_refl)].
Defined.

(** The request of the specification's example, run. *)
Example GET_box_request :
  GET (Sample.answering
         (Sample.with_body
            (VObj [("time", Sample.num 1); ("states", VArr [])])))
      Sample.box_request []
  = (Ok {| status := 200;
           body := VObj [("time", Sample.num 1); ("states", VArr [])] |},
     ["https://opensky-network.org/api/states/all?lamin=10&lomin=10&lamax=20&lomax=20"]).
Proof. reflexivity. Qed.

End GatewayFacts.

(** ** Arrays *)
Module ArrFacts.

(** A [.filter] that returns kept what the plain filter keeps, and its
    callback threw on no element. *)
Lemma filter_Ok {A} (f : A -> result bool) (l kept : list A) :
  Arr.filter f l = Ok kept ->
  kept
  = List.filter (fun x => match f x with Ok true => true | _ => false end) l.
Proof.
  revert kept. induction l as [|x l IH]; simpl; intros kept H.
  - now inversion H.
  - unfold Res.bind in H.
    destruct (f x) as [b|e]; [|discriminate].
    destruct (Arr.filter f l) as [rest|e]; [|discriminate].
    inversion H; subst. rewrite (IH rest eq_refl). now destruct b.
Qed.

Lemma filter_In {A} (f : A -> result bool) (l kept : list A) (x : A) :
  Arr.filter f l = Ok kept -> In x kept -> In x l /\ f x = Ok true.
Proof.
  intros H Hin. rewrite (filter_Ok _ _ _ H) in Hin.
  apply List.filter_In in Hin. destruct Hin as [Hl Hf]. split; [exact Hl|].
  destruct (f x) as [[|]|]; congruence.
Qed.

(** A [.map] that returns pairs each element with its image. *)
Lemma map_In {A B} (f : A -> result B) (l : list A) (ys : list B) (y : B) :
  Arr.map f l = Ok ys -> In y ys -> exists x, In x l /\ f x = Ok y.
Proof.
  revert ys. induction l as [|x l IH]; simpl; intros ys H Hin.
  - inversion H; subst. destruct Hin.
  - unfold Res.bind in H.
    destruct (f x) as [y0|e] eqn:Hfx; [|discriminate].
    destruct (Arr.map f l) as [rest|e]; [|discriminate].
    inversion H; subst. destruct Hin as [<- | Hin].
    + exists x. auto.
    + destruct (IH rest eq_refl Hin) as (x' & Hx' & Hf). exists x'. auto.
Qed.

(** [.map] returns when its callback does on every element. *)
Lemma map_total {A B} (f : A -> result B) (l : list A) :
  Forall (fun x => exists y, f x = Ok y) l -> exists ys, Arr.map f l = Ok ys.
Proof.
  induction 1 as [|x l [y Hy] _ [ys Hys]]; simpl.
  - eauto.
  - unfold Res.bind. rewrite Hy, Hys. eauto.
Qed.

Lemma map_length {A B} (f : A -> result B) (l : list A) (ys : list B) :
  Arr.map f l = Ok ys -> List.length ys = List.length l.
Proof.
  revert ys. induction l as [|x l IH]; simpl; intros ys H.
  - now inversion H.
  - unfold Res.bind in H.
    destruct (f x); [|discriminate].
    destruct (Arr.map f l) as [rest|]; [|discriminate].
    inversion H; subst. simpl. now rewrite (IH rest eq_refl).
Qed.

End ArrFacts.

(** ** The transformation of a response body *)
Module FormatFacts.

Import Tracker.

(** What [to_record] reads where, when it returns. *)
Lemma to_record_fields state r :
  to_record state = Ok r ->
  Js.get_index state 5 = Ok (longitude r)
  /\ Js.get_index state 6 = Ok (latitude r)
  /\ (exists s7, Js.get_index state 7 = Ok s7
                 /\ baro_altitude r = Js.coalesce s7 VUndefined)
  /\ (exists s10, Js.get_index state 10 = Ok s10
                  /\ true_track r = Js.coalesce s10 (VNum (Num.of_Z 0)))
  /\ (exists s17, Js.get_index state 17 = Ok s17
                  /\ category r = Js.coalesce s17 (VNum (Num.of_Z 0))).
Proof.
  destruct state; cbn; intros H; inversion H; subst; cbn;
    (split; [reflexivity|]); (split; [reflexivity|]);
    repeat (split; [eexists; split; reflexivity|]);
    eexists; split; reflexivity.
Qed.

(** The filter's callback answers [true] exactly on the states whose two
    coordinates read as something other than [null] and [undefined]. *)
Lemma has_position_true state :
  has_position state = Ok true ->
  exists lon la,
    Js.get_index state 5 = Ok lon /\ Js.get_index state 6 = Ok la
    /\ lon <> VNull /\ lon <> VUndefined /\ la <> VNull /\ la <> VUndefined.
Proof.
  unfold has_position, Res.bind. intros H.
  destruct (Js.get_index state 5) as [lon|]; [|discriminate].
  destruct (Js.get_index state 6) as [la|];
    [|destruct lon; discriminate].
  exists lon, la.
  destruct lon, la; simpl in H; try discriminate;
    repeat split; congruence.
Qed.

(** A state that passes the filter is one [to_record] returns on. *)
Lemma to_record_total state :
  has_position state = Ok true -> exists r, to_record state = Ok r.
Proof.
  destruct state; cbn; intros H; try discriminate; eexists; reflexivity.
Qed.

Lemma has_position_record state r :
  has_position state = Ok true -> to_record state = Ok r -> positioned r.
Proof.
  intros Hp Hr.
  destruct (has_position_true _ Hp) as (lon & la & H5 & H6 & Hpos).
  destruct (to_record_fields _ _ Hr) as (H5' & H6' & _).
  rewrite H5 in H5'. rewrite H6 in H6'.
  inversion H5'; inversion H6'; subst. exact Hpos.
Qed.

(** A state without a position does not pass the filter. *)
Lemma lacks_position_dropped state :
  lacks_position state -> has_position state <> Ok true.
Proof.
  intros Hl Hp.
  destruct (has_position_true _ Hp)
    as (lon & la & H5 & H6 & Hlon & _ & Hla & _).
  destruct Hl as [Hnull | Hnull]; congruence.
Qed.

(** What [format] returns on a body whose [states] is an array: the records
    of the states that have a position, in order. *)
Lemma format_array data elems recs :
  Js.get_prop data "states" = Ok (VArr elems) ->
  format data = Ok recs ->
  Arr.map to_record
    (List.filter
       (fun state =>
          match has_position state with Ok true => true | _ => false end)
       elems)
  = Ok recs.
Proof.
  intros Hs. unfold format, Res.bind. rewrite Hs. simpl.
  destruct (Arr.filter has_position elems) as [kept|] eqn:Hk; [|discriminate].
  now rewrite <- (ArrFacts.filter_Ok _ _ _ Hk).
Qed.

(** Every record [format] returns has a position and comes from a state of
    the body that has one. *)
Lemma format_records data recs r :
  format data = Ok recs -> In r recs ->
  positioned r
  /\ exists elems state,
       Js.get_prop data "states" = Ok (VArr elems)
       /\ In state elems /\ has_position state = Ok true
       /\ to_record state = Ok r.
Proof.
  unfold format, Res.bind.
  destruct (Js.get_prop data "states") as [states|] eqn:Hs; [|discriminate].
  destruct (Js.or states (VArr [])) as [| | | | |elems|] eqn:Hor;
    try discriminate.
  destruct (Arr.filter has_position elems) as [kept|] eqn:Hk; [|discriminate].
  intros Hm Hin.
  destruct (ArrFacts.map_In _ _ _ _ Hm Hin) as (state & Hstate & Hr).
  destruct (ArrFacts.filter_In _ _ _ _ Hk Hstate) as (Helems & Hp).
  split; [exact (has_position_record _ _ Hp Hr)|].
  unfold Js.or in Hor.
  destruct (Js.truthy states) eqn:Ht.
  - subst states. exists elems, state. auto.
  - inversion Hor; subst. destruct Helems.
Qed.

Lemma format_positioned data recs :
  format data = Ok recs -> Forall positioned recs.
Proof.
  intros H. apply Forall_forall. intros r Hin.
  exact (proj1 (format_records _ _ _ H Hin)).
Qed.

(** A body whose [states] reads as [null] or [undefined] is formatted to the
    empty set. *)
Lemma format_no_states data states :
  Js.get_prop data "states" = Ok states -> nullish states ->
  format data = Ok [].
Proof.
  intros Hs [-> | ->]; unfold format, Res.bind; rewrite Hs; reflexivity.
Qed.

(** *** Numbers of a parsed body are not NaN *)

Lemma lookup_json key props x :
  forallb (fun kv : string * value => let (_, y) := kv in is_json y) props
  = true ->
  Js.lookup key props = Some x -> is_json x = true.
Proof.
  induction props as [|[k y] props IH]; simpl; [discriminate|].
  intros Hall. apply andb_prop in Hall. destruct Hall as [Hy Hrest].
  destruct (String.eqb k key).
  - intros Hx. inversion Hx; subst. exact Hy.
  - exact (IH Hrest).
Qed.

Lemma nth_error_json elems i x :
  forallb is_json elems = true -> nth_error elems i = Some x ->
  is_json x = true.
Proof.
  intros Hall Hx. rewrite forallb_forall in Hall.
  exact (Hall x (nth_error_In _ _ Hx)).
Qed.

(** Reading an index of a parsed value gives [undefined] or a parsed
    value. *)
Lemma get_index_json v i x :
  is_json v = true -> Js.get_index v i = Ok x ->
  x = VUndefined \/ is_json x = true.
Proof.
  destruct v; simpl; intros Hv Hx; try discriminate;
    inversion Hx; subst; clear Hx; auto.
  - destruct (String.get i s); auto.
  - destruct (nth_error elems i) as [x|] eqn:Hn; simpl; auto.
    right. exact (nth_error_json _ _ _ Hv Hn).
  - destruct (Js.lookup (Js.index_key i) props) as [x|] eqn:Hl; simpl; auto.
    right. exact (lookup_json _ _ _ Hv Hl).
Qed.

Lemma json_not_nan x : x = VUndefined \/ is_json x = true -> not_nan x.
Proof.
  intros [-> | Hx] n Hn; [discriminate|]. subst x. simpl in Hx.
  now destruct (Num.is_nan n).
Qed.

Lemma coalesce_not_nan x d :
  not_nan x -> not_nan d -> not_nan (Js.coalesce x d).
Proof.
  intros Hx Hd. destruct x; simpl; assumption.
Qed.

Lemma zero_not_nan : not_nan (VNum (Num.of_Z 0)).
Proof.
  intros n Hn. inversion Hn; subst. reflexivity.
Qed.

Lemma undefined_not_nan : not_nan VUndefined.
Proof.
  intros n Hn. discriminate.
Qed.

(** The numbers the icon layer reads from a record of a parsed state are not
    NaN. *)
Lemma to_record_not_nan state r :
  is_json state = true -> to_record state = Ok r ->
  not_nan (longitude r) /\ not_nan (latitude r)
  /\ not_nan (baro_altitude r) /\ not_nan (true_track r).
Proof.
  intros Hj Hr.
  destruct (to_record_fields _ _ Hr)
    as (H5 & H6 & (s7 & H7 & Hb) & (s10 & H10 & Ht) & _).
  pose proof (fun i x H => json_not_nan x (get_index_json state i x Hj H))
    as Hn.
  rewrite Hb, Ht. repeat split.
  - exact (Hn _ _ H5).
  - exact (Hn _ _ H6).
  - apply coalesce_not_nan; [exact (Hn _ _ H7) | exact undefined_not_nan].
  - apply coalesce_not_nan; [exact (Hn _ _ H10) | exact zero_not_nan].
Qed.

(** So are those of every record formatted from a parsed body. *)
Lemma format_not_nan data recs r :
  is_json data = true -> format data = Ok recs -> In r recs ->
  not_nan (longitude r) /\ not_nan (latitude r)
  /\ not_nan (baro_altitude r) /\ not_nan (true_track r).
Proof.
  intros Hj Hf Hin.
  destruct (format_records _ _ _ Hf Hin)
    as (_ & elems & state & Hs & Hstate & _ & Hr).
  apply (to_record_not_nan state r); [|exact Hr].
  destruct data; simpl in Hs; try discriminate;
    inversion Hs as [Hl]; clear Hs.
  destruct (Js.lookup "states" props) as [x|] eqn:Hx; simpl in Hl;
    [|discriminate].
  subst x. pose proof (lookup_json _ _ _ Hj Hx) as Harr. simpl in Harr.
  rewrite forallb_forall in Harr. exact (Harr _ Hstate).
Qed.

End FormatFacts.

(** ** The fetch cycle *)
Module TrackerFacts.

Import Tracker.

Section Cycle.

Variable number_to_string : number -> string.

Ltac run_fetchData :=
  unfold fetchData, Eff.try_catch, Eff.bind, fetch,
    console_error, setAircraftData, Eff.modify, Eff.lift, Eff.ret.

(** No cycle throws: what the body of the [try] throws, the [catch] turns
    into an empty set. *)
Lemma fetchData_returns net currentMap s :
  fst (fetchData number_to_string net currentMap s) = Ok tt.
Proof.
  run_fetchData.
  destruct currentMap as [m|]; [|reflexivity].
  destruct (zoom_too_low (getZoom m)); [reflexivity|].
  destruct (getBounds m) as [bounds|]; [|reflexivity].
  fold (box_of bounds).
  destruct (net (states_url number_to_string (box_of bounds)))
    as [response|]; simpl; [|reflexivity].
  destruct (Fetch.ok response); simpl; [|reflexivity].
  destruct (Fetch.json response) as [data|]; simpl; [|reflexivity].
  destruct (format data); reflexivity.
Qed.

(** Without a map nothing happens. *)
Lemma fetchData_no_map net s :
  fetchData number_to_string net None s = (Ok tt, s).
Proof. reflexivity. Qed.

(** Zoom undefined or below 7: the set is cleared, nothing else changes. *)
Lemma fetchData_gated net m s :
  zoom_too_low (getZoom m) = true ->
  fetchData number_to_string net (Some m) s =
    (Ok tt,
     {| aircraftData := []; requests := requests s; console := console s |}).
Proof.
  intros Hz. run_fetchData. now rewrite Hz.
Qed.

(** Zoom 7 or more, no bounds: nothing changes. *)
Lemma fetchData_no_bounds net m s :
  zoom_too_low (getZoom m) = false ->
  getBounds m = None ->
  fetchData number_to_string net (Some m) s = (Ok tt, s).
Proof.
  intros Hz Hb. run_fetchData. now rewrite Hz, Hb.
Qed.

(** Zoom 7 or more, with bounds: one request, for the bounding box. *)
Lemma fetchData_requests net m bounds s :
  zoom_too_low (getZoom m) = false ->
  getBounds m = Some bounds ->
  requests (snd (fetchData number_to_string net (Some m) s))
  = (requests s ++ [states_url number_to_string (box_of bounds)])%list.
Proof.
  intros Hz Hb. run_fetchData. rewrite Hz, Hb. fold (box_of bounds).
  destruct (net (states_url number_to_string (box_of bounds)))
    as [response|]; simpl; [|reflexivity].
  destruct (Fetch.ok response); simpl; [|reflexivity].
  destruct (Fetch.json response) as [data|]; simpl; [|reflexivity].
  destruct (format data); reflexivity.
Qed.

(** A response that is OK and parses: the set becomes what [format] returns,
    or the empty set when [format] throws. *)
Lemma fetchData_parsed net m bounds response data s :
  zoom_too_low (getZoom m) = false ->
  getBounds m = Some bounds ->
  net (states_url number_to_string (box_of bounds)) = Ok response ->
  Fetch.ok response = true ->
  Fetch.json response = Ok data ->
  aircraftData (snd (fetchData number_to_string net (Some m) s))
  = match format data with Ok recs => recs | Throw _ => [] end.
Proof.
  intros Hz Hb Hnet Hok Hjson. run_fetchData.
  rewrite Hz, Hb. fold (box_of bounds). rewrite Hnet; simpl.
  rewrite Hok; simpl. rewrite Hjson; simpl.
  destruct (format data); reflexivity.
Qed.

(** A request that is rejected, or answered with a status that is not OK:
    the set becomes empty. *)
Lemma fetchData_failed net m bounds s :
  zoom_too_low (getZoom m) = false ->
  getBounds m = Some bounds ->
  (exists e, net (states_url number_to_string (box_of bounds)) = Throw e)
  \/ (exists response,
         net (states_url number_to_string (box_of bounds)) = Ok response
         /\ Fetch.ok response = false) ->
  aircraftData (snd (fetchData number_to_string net (Some m) s)) = [].
Proof.
  intros Hz Hb H. run_fetchData. rewrite Hz, Hb. fold (box_of bounds).
  destruct H as [[e Hnet] | (response & Hnet & Hok)]; rewrite Hnet; simpl.
  - reflexivity.
  - now rewrite Hok.
Qed.

(** Whatever a cycle stores has a position everywhere, if what was there
    before did. *)
Lemma fetchData_positioned net currentMap s :
  Forall positioned (aircraftData s) ->
  Forall positioned
    (aircraftData (snd (fetchData number_to_string net currentMap s))).
Proof.
  intros Hs. run_fetchData.
  destruct currentMap as [m|]; [|exact Hs].
  destruct (zoom_too_low (getZoom m)); [constructor|].
  destruct (getBounds m) as [bounds|]; [|exact Hs].
  fold (box_of bounds).
  destruct (net (states_url number_to_string (box_of bounds)))
    as [response|]; simpl; [|constructor].
  destruct (Fetch.ok response); simpl; [|constructor].
  destruct (Fetch.json response) as [data|]; simpl; [|constructor].
  destruct (format data) as [recs|] eqn:Hf; simpl; [|constructor].
  exact (FormatFacts.format_positioned _ _ Hf).
Qed.

(** C1. When the zoom is undefined or below 7, the cycle empties the set and
    requests nothing; when it is 7 or more and the bounds are there, the
    cycle issues exactly one request. *)
Theorem C1_zoom_threshold net m s :
  (getZoom m = None
   \/ (exists z, getZoom m = Some z /\ Num.lt z (Num.of_Z 7) = true) ->
   aircraftData (snd (fetchData number_to_string net (Some m) s)) = []
   /\ requests (snd (fetchData number_to_string net (Some m) s)) = requests s)
  /\ (forall z bounds,
         getZoom m = Some z ->
         Num.le (Num.of_Z 7) z = true ->
         getBounds m = Some bounds ->
         requests (snd (fetchData number_to_string net (Some m) s))
         = (requests s ++ [states_url number_to_string (box_of bounds)])%list).
Proof.
  split.
  - intros Hz.
    assert (Hlow : zoom_too_low (getZoom m) = true).
    { destruct Hz as [-> | (z & -> & Hlt)]; [reflexivity | exact Hlt]. }
    rewrite (fetchData_gated _ _ _ Hlow). split; reflexivity.
  - intros z bounds Hz Hle Hb.
    apply fetchData_requests; [|exact Hb].
    rewrite Hz. simpl. now apply NumFacts.le_not_lt.
Qed.

(** A response whose body cannot be read, or whose parsed body makes the
    transformation throw: the [catch] empties the set. *)
Lemma fetchData_threw net m bounds s :
  zoom_too_low (getZoom m) = false ->
  getBounds m = Some bounds ->
  (exists response e,
      net (states_url number_to_string (box_of bounds)) = Ok response
      /\ Fetch.json response = Throw e)
  \/ (exists response data e,
         net (states_url number_to_string (box_of bounds)) = Ok response
         /\ Fetch.json response = Ok data
         /\ format data = Throw e) ->
  aircraftData (snd (fetchData number_to_string net (Some m) s)) = [].
Proof.
  intros Hz Hb H. run_fetchData. rewrite Hz, Hb. fold (box_of bounds).
  destruct H as [(response & e & Hnet & Hj)
                | (response & data & e & Hnet & Hj & Hf)];
    rewrite Hnet; simpl;
    (destruct (Fetch.ok response); simpl; [|reflexivity]);
    rewrite Hj; simpl; [reflexivity|].
  now rewrite Hf.
Qed.

(** C5. When the request is rejected, when it is answered with a status that
    is not OK, when reading the body of the response throws, and when the
    transformation of the parsed body throws, the cycle leaves the empty set
    and throws nothing. *)
Theorem C5_failure_clears net m bounds s :
  zoom_too_low (getZoom m) = false ->
  getBounds m = Some bounds ->
  (exists e, net (states_url number_to_string (box_of bounds)) = Throw e)
  \/ (exists response,
         net (states_url number_to_string (box_of bounds)) = Ok response
         /\ Fetch.ok response = false)
  \/ (exists response e,
         net (states_url number_to_string (box_of bounds)) = Ok response
         /\ Fetch.json response = Throw e)
  \/ (exists response data e,
         net (states_url number_to_string (box_of bounds)) = Ok response
         /\ Fetch.json response = Ok data
         /\ format data = Throw e) ->
  fst (fetchData number_to_string net (Some m) s) = Ok tt
  /\ aircraftData (snd (fetchData number_to_string net (Some m) s)) = [].
Proof.
  intros Hz Hb H. split.
  - apply fetchData_returns.
  - destruct H as [H | [H | H]].
    + apply (fetchData_failed _ _ _ _ Hz Hb). now left.
    + apply (fetchData_failed _ _ _ _ Hz Hb). now right.
    + exact (fetchData_threw _ _ _ _ Hz Hb H).
Qed.

(** C6. With a zoom of 7 or more but without bounds, the cycle requests
    nothing and leaves the set, and the rest of the state, as it was. *)
Theorem C6_no_bounds_keeps_data net m s :
  zoom_too_low (getZoom m) = false ->
  getBounds m = None ->
  fetchData number_to_string net (Some m) s = (Ok tt, s).
Proof.
  exact (fetchData_no_bounds net m s).
Qed.

(** C9. On an OK response whose body has [states] null or missing, the
    transformation returns the empty list, and the cycle stores it without
    throwing. *)
Theorem C9_no_states_gives_empty net m bounds response data states s :
  zoom_too_low (getZoom m) = false ->
  getBounds m = Some bounds ->
  net (states_url number_to_string (box_of bounds)) = Ok response ->
  Fetch.ok response = true ->
  Fetch.json response = Ok data ->
  Js.get_prop data "states" = Ok states ->
  nullish states ->
  format data = Ok []
  /\ fst (fetchData number_to_string net (Some m) s) = Ok tt
  /\ aircraftData (snd (fetchData number_to_string net (Some m) s)) = [].
Proof.
  intros Hz Hb Hnet Hok Hjson Hs Hn.
  pose proof (FormatFacts.format_no_states _ _ Hs Hn) as Hf.
  split; [exact Hf|]. split; [apply fetchData_returns|].
  rewrite (fetchData_parsed _ _ _ _ _ _ Hz Hb Hnet Hok Hjson).
  now rewrite Hf.
Qed.

(** C2. Every cycle keeps the set free of records without a position; and
    after an OK response whose [states] is an array, every record of the set
    has a position and is the record of a state of the response that has
    one, so the record of a state whose longitude or latitude is [null] is
    not in the set. *)
Theorem C2_records_have_position net currentMap s :
  (Forall positioned (aircraftData s) ->
   Forall positioned
     (aircraftData (snd (fetchData number_to_string net currentMap s))))
  /\ (forall m bounds response data elems,
         currentMap = Some m ->
         zoom_too_low (getZoom m) = false ->
         getBounds m = Some bounds ->
         net (states_url number_to_string (box_of bounds)) = Ok response ->
         Fetch.ok response = true ->
         Fetch.json response = Ok data ->
         Js.get_prop data "states" = Ok (VArr elems) ->
         let shown :=
           aircraftData (snd (fetchData number_to_string net currentMap s)) in
         (forall r, In r shown ->
            positioned r
            /\ exists state,
                 In state elems /\ ~ lacks_position state
                 /\ to_record state = Ok r)
         /\ (forall state r,
               In state elems -> lacks_position state ->
               to_record state = Ok r -> ~ In r shown)).
Proof.
  split; [apply fetchData_positioned|].
  intros m bounds response data elems -> Hz Hb Hnet Hok Hjson Hs shown.
  assert (Hshown : forall r, In r shown ->
            positioned r
            /\ exists state,
                 In state elems /\ ~ lacks_position state
                 /\ to_record state = Ok r).
  { subst shown.
    rewrite (fetchData_parsed _ _ _ _ _ _ Hz Hb Hnet Hok Hjson).
    destruct (format data) as [recs|] eqn:Hf; [|intros r []].
    intros r Hin.
    destruct (FormatFacts.format_records _ _ _ Hf Hin)
      as (Hpos & elems' & state & Hs' & Hstate & Hp & Hr).
    split; [exact Hpos|].
    rewrite Hs in Hs'. inversion Hs'; subst elems'.
    exists state. repeat split; try assumption.
    intros Hl. exact (FormatFacts.lacks_position_dropped _ Hl Hp). }
  split; [exact Hshown|].
  intros state r _ Hl Hr Hin.
  destruct (Hshown r Hin) as ((Hlon & _ & Hla & _) & _).
  destruct (FormatFacts.to_record_fields _ _ Hr) as (H5 & H6 & _).
  destruct Hl as [Hnull | Hnull]; congruence.
Qed.

End Cycle.

(** C4. A state that has a position is mapped to a record; the record's
    [true_track] is 0 when index 10 reads as [null] or [undefined] and is the
    value read otherwise; its [category] is 0 when index 17 reads as
    [undefined] and is the value read when that is neither [undefined] nor
    [null]. *)
Theorem C4_heading_and_category_default state :
  has_position state = Ok true ->
  exists r s10 s17,
    to_record state = Ok r
    /\ Js.get_index state 10 = Ok s10
    /\ Js.get_index state 17 = Ok s17
    /\ (nullish s10 -> true_track r = VNum (Num.of_Z 0))
    /\ (~ nullish s10 -> true_track r = s10)
    /\ (s17 = VUndefined -> category r = VNum (Num.of_Z 0))
    /\ (~ nullish s17 -> category r = s17).
Proof.
  intros Hp.
  destruct (FormatFacts.to_record_total _ Hp) as [r Hr].
  destruct (FormatFacts.to_record_fields _ _ Hr)
    as (_ & _ & _ & (s10 & H10 & Ht) & (s17 & H17 & Hc)).
  exists r, s10, s17. rewrite Ht, Hc.
  repeat split; try assumption.
  - intros [-> | ->]; reflexivity.
  - intros Hn. destruct s10; try reflexivity; exfalso; apply Hn;
      [right | left]; reflexivity.
  - intros ->; reflexivity.
  - intros Hn. destruct s17; try reflexivity; exfalso; apply Hn;
      [right | left]; reflexivity.
Qed.

(** A state with every field, and one with neither track nor category. *)
Lemma C4_witness :
  exists r s10 s17,
    to_record Sample.parked = Ok r
    /\ Js.get_index Sample.parked 10 = Ok s10
    /\ Js.get_index Sample.parked 17 = Ok s17
    /\ (nullish s10 -> true_track r = VNum (Num.of_Z 0))
    /\ (~ nullish s10 -> true_track r = s10)
    /\ (s17 = VUndefined -> category r = VNum (Num.of_Z 0))
    /\ (~ nullish s17 -> category r = s17).
Proof.
  exact (C4_heading_and_category_default Sample.parked eq_refl).
Defined.

Example to_record_parked :
  option_map (fun r => (true_track r, category r))
    (match to_record Sample.parked with Ok r => Some r | Throw _ => None end)
  = Some (Sample.num 0, Sample.num 0).
Proof. reflexivity. Qed.

Example to_record_airborne :
  option_map (fun r => (true_track r, category r))
    (match to_record Sample.airborne with Ok r => Some r | Throw _ => None end)
  = Some (Sample.num 90, Sample.num 3).
Proof. reflexivity. Qed.

(** Zoom 6 empties a set left over and requests nothing; zoom 7 requests
    once. *)
Lemma C1_witness :
  (aircraftData
     (snd (fetchData Sample.number_to_string Sample.rejecting
             (Some (Sample.map_at 6)) Sample.stale)) = []
   /\ requests
        (snd (fetchData Sample.number_to_string Sample.rejecting
                (Some (Sample.map_at 6)) Sample.stale))
      = requests Sample.stale)
  /\ requests
       (snd (fetchData Sample.number_to_string Sample.rejecting
               (Some (Sample.map_at 7)) Sample.stale))
     = (requests Sample.stale
        ++ [states_url Sample.number_to_string (box_of Sample.bounds)])%list.
Proof.
  split.
  - apply (proj1 (C1_zoom_threshold Sample.number_to_string Sample.rejecting
                    (Sample.map_at 6) Sample.stale)).
    right. exists (Num.of_Z 6). split; reflexivity.
  - apply (proj2 (C1_zoom_threshold Sample.number_to_string Sample.rejecting
                    (Sample.map_at 7) Sample.stale)
                 (Num.of_Z 7) Sample.bounds); reflexivity.
Defined.

Example cycle_at_zoom_6 :
  fetchData Sample.number_to_string Sample.rejecting
    (Some (Sample.map_at 6)) Sample.stale
  = (Ok tt,
     {| aircraftData := [];
        requests := ["/api/states?lamin=1&lomin=1&lamax=1&lomax=1"];
        console := [] |}).
Proof. reflexivity. Qed.

Example cycle_without_zoom :
  fetchData Sample.number_to_string Sample.rejecting
    (Some Sample.map_without_zoom) Sample.stale
  = (Ok tt,
     {| aircraftData := [];
        requests := ["/api/states?lamin=1&lomin=1&lamax=1&lomax=1"];
        console := [] |}).
Proof. reflexivity. Qed.

(** The sample body has three states, one without a position. *)
Lemma C2_witness :
  let shown :=
    aircraftData
      (snd (fetchData Sample.number_to_string
              (Sample.answering (Sample.with_body Sample.body))
              (Some (Sample.map_at 7)) initial)) in
  Forall positioned shown
  /\ (forall r, In r shown ->
        positioned r
        /\ exists state,
             In state Sample.states /\ ~ lacks_position state
             /\ to_record state = Ok r)
  /\ (forall state r,
        In state Sample.states -> lacks_position state ->
        to_record state = Ok r -> ~ In r shown).
Proof.
  pose proof (C2_records_have_position Sample.number_to_string
                (Sample.answering (Sample.with_body Sample.body))
                (Some (Sample.map_at 7)) initial) as [Hinv Hresp].
  split; [exact (Hinv (Forall_nil _))|].
  exact (Hresp (Sample.map_at 7) Sample.bounds (Sample.with_body Sample.body)
               Sample.body Sample.states
               eq_refl eq_refl eq_refl eq_refl eq_refl eq_refl eq_refl).
Defined.

Example cycle_on_sample_body :
  List.map icao24
    (aircraftData
       (snd (fetchData Sample.number_to_string
               (Sample.answering (Sample.with_body Sample.body))
               (Some (Sample.map_at 7)) initial)))
  = [VStr "4b1814"; VStr "86d6a4"].
Proof. reflexivity. Qed.

(** A 503 from the gateway, a rejected request, a body that does not parse
    and a body with a [null] among its states each empty a set left over. *)
Lemma C5_witness :
  (fst (fetchData Sample.number_to_string (Sample.answering Sample.unavailable)
          (Some (Sample.map_at 7)) Sample.stale) = Ok tt
   /\ aircraftData
        (snd (fetchData Sample.number_to_string
                (Sample.answering Sample.unavailable)
                (Some (Sample.map_at 7)) Sample.stale)) = [])
  /\ aircraftData
       (snd (fetchData Sample.number_to_string Sample.rejecting
               (Some (Sample.map_at 7)) Sample.stale)) = []
  /\ aircraftData
       (snd (fetchData Sample.number_to_string
               (Sample.answering Sample.unparseable)
               (Some (Sample.map_at 7)) Sample.stale)) = []
  /\ aircraftData
       (snd (fetchData Sample.number_to_string
               (Sample.answering (Sample.with_body Sample.holed_body))
               (Some (Sample.map_at 7)) Sample.stale)) = [].
Proof.
  split; [|split; [|split]].
  - apply (C5_failure_clears Sample.number_to_string
             (Sample.answering Sample.unavailable)
             (Sample.map_at 7) Sample.bounds Sample.stale);
      [reflexivity | reflexivity |].
    right; left. exists Sample.unavailable. split; reflexivity.
  - apply (C5_failure_clears Sample.number_to_string Sample.rejecting
             (Sample.map_at 7) Sample.bounds Sample.stale);
      [reflexivity | reflexivity |].
    left. eexists. reflexivity.
  - apply (C5_failure_clears Sample.number_to_string
             (Sample.answering Sample.unparseable)
             (Sample.map_at 7) Sample.bounds Sample.stale);
      [reflexivity | reflexivity |].
    right; right; left. exists Sample.unparseable. eexists.
    split; reflexivity.
  - apply (C5_failure_clears Sample.number_to_string
             (Sample.answering (Sample.with_body Sample.holed_body))
             (Sample.map_at 7) Sample.bounds Sample.stale);
      [reflexivity | reflexivity |].
    right; right; right.
    exists (Sample.with_body Sample.holed_body), Sample.holed_body.
    eexists. repeat split; reflexivity.
Defined.

Example cycle_rejected :
  fetchData Sample.number_to_string Sample.rejecting
    (Some (Sample.map_at 7)) Sample.stale
  = (Ok tt,
     {| aircraftData := [];
        requests := ["/api/states?lamin=1&lomin=1&lamax=1&lomax=1";
                     "/api/states?lamin=1&lomin=1&lamax=1&lomax=1"];
        console := [("Error fetching aircraft data:",
                     LogThrown (ErrorObject "TypeError" "fetch failed"))] |}).
Proof. reflexivity. Qed.

(** A body that does not parse empties the set as well. *)
Example cycle_unparseable :
  aircraftData
    (snd (fetchData Sample.number_to_string
            (Sample.answering Sample.unparseable)
            (Some (Sample.map_at 7)) Sample.stale)) = [].
Proof. reflexivity. Qed.

(** Zoom 9 and no bounds: the set left over stays. *)
Lemma C6_witness :
  fetchData Sample.number_to_string Sample.rejecting
    (Some Sample.map_without_bounds) Sample.stale
  = (Ok tt, Sample.stale).
Proof.
  exact (C6_no_bounds_keeps_data Sample.number_to_string Sample.rejecting
           Sample.map_without_bounds Sample.stale eq_refl eq_refl).
Defined.

(** [{time: 1, states: null}] *)
Lemma C9_witness :
  format (VObj [("time", Sample.num 1); ("states", VNull)]) = Ok []
  /\ fst (fetchData Sample.number_to_string
            (Sample.answering
               (Sample.with_body
                  (VObj [("time", Sample.num 1); ("states", VNull)])))
            (Some (Sample.map_at 7)) Sample.stale) = Ok tt
  /\ aircraftData
       (snd (fetchData Sample.number_to_string
               (Sample.answering
                  (Sample.with_body
                     (VObj [("time", Sample.num 1); ("states", VNull)])))
               (Some (Sample.map_at 7)) Sample.stale)) = [].
Proof.
  apply (C9_no_states_gives_empty Sample.number_to_string
           (Sample.answering
              (Sample.with_body
                 (VObj [("time", Sample.num 1); ("states", VNull)])))
           (Sample.map_at 7) Sample.bounds
           (Sample.with_body (VObj [("time", Sample.num 1); ("states", VNull)]))
           (VObj [("time", Sample.num 1); ("states", VNull)])
           VNull Sample.stale);
    try reflexivity.
  left; reflexivity.
Defined.

(** Neither an absent [states] nor a body that is not an object makes the
    transformation throw. *)
Example format_without_states :
  format (VObj [("time", Sample.num 1)]) = Ok []
  /\ format (VArr []) = Ok []
  /\ format (VStr "busy") = Ok [].
Proof. repeat split; reflexivity. Qed.

(** The handlers start a cycle only with a map in hand. *)
Lemma handlers_pass_a_map number_to_string net :
  (forall currentMap,
      onMapLoad number_to_string net currentMap
      = fetchData number_to_string net (Some currentMap))
  /\ (forall m,
        onMapIdle number_to_string net (Some m)
        = fetchData number_to_string net (Some m))
  /\ (forall s, onMapIdle number_to_string net None s = (Ok tt, s)).
Proof. repeat split. Qed.

End TrackerFacts.

(** ** The icon layer *)
Module RendererFacts.

Import Tracker Renderer.

(** C3. For a record whose coordinates are numbers, the position is
    (longitude, latitude, altitude or 0); on the ground the size is 10 and
    the colour the red [255, 0, 0, 200], in the air the size is 20 and the
    colour the green [0, 255, 0, 200]; and the angle is [-(heading) + 90],
    the heading counting as 0 when absent: 90 for heading 0, 0 for heading
    90, -90 for heading 180.  Numbers are compared with [===] and are not
    NaN, which no JSON body holds. *)
Theorem C3_icon_accessors d :
  (forall lon la,
      longitude d = VNum lon -> latitude d = VNum la ->
      Num.is_nan lon = false -> Num.is_nan la = false ->
      exists x y,
        getPosition d
        = (VNum x, VNum y, Js.or (baro_altitude d) (VNum (Num.of_Z 0)))
        /\ same_number x lon /\ same_number y la)
  /\ (baro_altitude d = VUndefined ->
      snd (getPosition d) = VNum (Num.of_Z 0))
  /\ (forall alt,
        baro_altitude d = VNum alt -> Num.is_nan alt = false ->
        exists z, snd (getPosition d) = VNum z /\ same_number z alt)
  /\ (on_ground d = VBool true ->
      getSize d = 10%Z /\ getColor d = [255; 0; 0; 200]%Z
      /\ red_family (getColor d))
  /\ (on_ground d = VBool false ->
      getSize d = 20%Z /\ getColor d = [0; 255; 0; 200]%Z
      /\ green_family (getColor d))
  /\ (forall d',
        on_ground d = VBool true -> on_ground d' = VBool false ->
        (getSize d < getSize d')%Z)
  /\ (forall h,
        true_track d = VNum h -> Num.is_nan h = false ->
        getAngle d = Some (Num.add (Num.neg h) (Num.of_Z 90)))
  /\ (true_track d = VUndefined -> getAngle d = Some (Num.of_Z 90))
  /\ (true_track d = VNum (Num.of_Z 0) -> getAngle d = Some (Num.of_Z 90))
  /\ (true_track d = VNum (Num.of_Z 90) -> getAngle d = Some (Num.of_Z 0))
  /\ (true_track d = VNum (Num.of_Z 180) -> getAngle d = Some (Num.of_Z (-90))).
Proof.
  repeat apply conj.
  - intros lon la Hlon Hla Nlon Nla. unfold getPosition. rewrite Hlon, Hla.
    destruct (NumFacts.or_zero_same lon Nlon) as (x & -> & Hx).
    destruct (NumFacts.or_zero_same la Nla) as (y & -> & Hy).
    exists x, y. auto.
  - intros Hb. unfold getPosition. rewrite Hb. reflexivity.
  - intros alt Hb Nalt. unfold getPosition. rewrite Hb. cbn [snd].
    destruct (NumFacts.or_zero_same alt Nalt) as (z & -> & Hz).
    exists z. auto.
  - intros Hg. unfold getSize, getColor. rewrite Hg. simpl.
    repeat split. exists 255%Z, 0%Z, 0%Z, 200%Z. repeat split; lia.
  - intros Hg. unfold getSize, getColor. rewrite Hg. simpl.
    repeat split. exists 0%Z, 255%Z, 0%Z, 200%Z. repeat split; lia.
  - intros d' Hg Hg'. unfold getSize. rewrite Hg, Hg'. simpl. lia.
  - intros h Hh Nh. unfold getAngle. rewrite Hh.
    destruct (NumFacts.neg_or_zero_add h Nh) as (h' & -> & Hsum).
    now rewrite Hsum.
  - intros Hh. unfold getAngle. rewrite Hh. reflexivity.
  - intros Hh. unfold getAngle. rewrite Hh. reflexivity.
  - intros Hh. unfold getAngle. rewrite Hh. reflexivity.
  - intros Hh. unfold getAngle. rewrite Hh. reflexivity.
Qed.

(** The record of the airborne sample, and that of the parked one. *)
Lemma C3_witness :
  (exists x y,
      getPosition Sample.airborne_record
      = (VNum x, VNum y,
         Js.or (baro_altitude Sample.airborne_record) (VNum (Num.of_Z 0)))
      /\ same_number x (Num.of_Z 139) /\ same_number y (Num.of_Z 35))
  /\ (getSize Sample.airborne_record = 20%Z
      /\ getColor Sample.airborne_record = [0; 255; 0; 200]%Z
      /\ green_family (getColor Sample.airborne_record))
  /\ getAngle Sample.airborne_record
     = Some (Num.add (Num.neg (Num.of_Z 90)) (Num.of_Z 90))
  /\ (getSize Sample.parked_record = 10%Z
      /\ getColor Sample.parked_record = [255; 0; 0; 200]%Z
      /\ red_family (getColor Sample.parked_record))
  /\ snd (getPosition Sample.parked_record) = VNum (Num.of_Z 0)
  /\ getAngle Sample.parked_record = Some (Num.of_Z 90).
Proof.
  pose proof (C3_icon_accessors Sample.airborne_record)
    as (Hpos & _ & _ & _ & Hair & _ & Hangle & _).
  pose proof (C3_icon_accessors Sample.parked_record)
    as (_ & Halt & _ & Hground & _ & _ & _ & _ & Hzero & _).
  split; [exact (Hpos _ _ eq_refl eq_refl eq_refl eq_refl)|].
  split; [exact (Hair eq_refl)|].
  split; [exact (Hangle _ eq_refl eq_refl)|].
  split; [exact (Hground eq_refl)|].
  split; [exact (Halt eq_refl) | exact (Hzero eq_refl)].
Defined.

(** The sample records are what the tracker makes of the sample states. *)
Example sample_records :
  to_record Sample.airborne = Ok Sample.airborne_record
  /\ to_record Sample.parked = Ok Sample.parked_record.
Proof. split; reflexivity. Qed.

(** Headings 0, 90, 180 and 270, run. *)
Example angles :
  List.map
    (fun h => Num.add (Num.neg (Num.of_Z h)) (Num.of_Z 90))
    [0; 90; 180; 270]%Z
  = [Num.of_Z 90; Num.of_Z 0; Num.of_Z (-90); Num.of_Z (-180)].
Proof. reflexivity. Qed.

End RendererFacts.

(** * Further properties *)

(** ** Numbers *)
Module NumMore.

(** A comparison has no answer exactly when a side is NaN. *)
Lemma compare_None (x y : number) :
  SFcompare x y = None <-> Num.is_nan x = true \/ Num.is_nan y = true.
Proof.
  destruct x as [sx|sx| |sx mx ex], y as [sy|sy| |sy my ey]; simpl;
    split; intros H; try discriminate; auto;
    destruct H; discriminate.
Qed.

Lemma number_eqb_eq (x y : number) : number_eqb x y = true -> x = y.
Proof.
  destruct x as [sx|sx| |sx mx ex], y as [sy|sy| |sy my ey]; simpl;
    intros H; try discriminate; try reflexivity.
  - now apply Bool.eqb_prop in H; subst.
  - now apply Bool.eqb_prop in H; subst.
  - apply andb_prop in H. destruct H as [H He].
    apply andb_prop in H. destruct H as [Hs Hm].
    apply Bool.eqb_prop in Hs. apply Pos.eqb_eq in Hm. apply Z.eqb_eq in He.
    now subst.
Qed.

End NumMore.

(** ** More on the gateway *)
Module GatewayMore.

Import Gateway.

Lemma get_app name (l l' : URLSearchParams) :
  get name (l ++ l')%list
  = match get name l with Some v => Some v | None => get name l' end.
Proof.
  induction l as [|[k v] l IH]; simpl; [now destruct (get name l')|].
  now destruct (String.eqb k name).
Qed.

Lemma get_foreign name (l : URLSearchParams) :
  Forall (fun kv => fst kv <> name) l -> get name l = None.
Proof.
  induction 1 as [|[k v] l Hk _ IH]; simpl; [reflexivity|].
  destruct (String.eqb k name) eqn:E; [|exact IH].
  apply String.eqb_eq in E. now elim Hk.
Qed.

(** With each name at most once, the order of the pairs does not matter to
    [get]. *)
Lemma get_Permutation name (l l' : URLSearchParams) :
  NoDup (List.map fst l) -> Permutation l l' -> get name l = get name l'.
Proof.
  intros Hnd Hp.
  induction Hp
    as [|[k v] l l' Hp IH|[k v] [k' v'] l|l l' l'' H1 IH1 H2 IH2].
  - reflexivity.
  - simpl. inversion Hnd; subst. now rewrite IH.
  - simpl. inversion Hnd as [|? ? Hin _]; subst.
    destruct (String.eqb k name) eqn:E, (String.eqb k' name) eqn:E';
      try reflexivity.
    apply String.eqb_eq in E, E'. subst. elim Hin. now left.
  - rewrite IH1 by exact Hnd. apply IH2.
    apply (Permutation_NoDup (Permutation_map fst H1) Hnd).
Qed.

#[local] Arguments NextResponse_json : simpl never.
#[local] Arguments error_body : simpl never.

(** When upstream fails, [GET] answers with a status that [response.ok]
    rejects: the upstream status when it was relayed, 500 otherwise. *)
Lemma GET_failure_not_ok net request t r :
  fst (GET net request t) = Ok r ->
  (exists e, net (upstream_url request) = Throw e)
  \/ (exists response,
         net (upstream_url request) = Ok response
         /\ (Fetch.ok response = false
             \/ exists e, Fetch.json response = Throw e)) ->
  ok_status (status r) = false.
Proof.
  unfold GET, Eff.try_catch, Eff.bind, fetch, Eff.lift, Eff.ret.
  fold (upstream_url request).
  intros Hr [[e He] | (response & Hresp & H)].
  - rewrite He in Hr. simpl in Hr.
    rewrite GatewayFacts.json_error_500 in Hr. simpl in Hr.
    inversion Hr. reflexivity.
  - rewrite Hresp in Hr. simpl in Hr.
    destruct (Fetch.ok response) eqn:Hok; simpl in Hr.
    + destruct H as [H | [e He]]; [discriminate|].
      rewrite He in Hr. simpl in Hr.
      rewrite GatewayFacts.json_error_500 in Hr. simpl in Hr.
      inversion Hr. reflexivity.
    + destruct (GatewayFacts.json_error_cases
                  ("Error fetching from OpenSky Network: "
                   ++ Fetch.statusText response) (Fetch.status response))
        as [Hrel | (name & text & Hthrow)].
      * simpl in Hrel. rewrite Hrel in Hr. simpl in Hr.
        inversion Hr. exact Hok.
      * simpl in Hthrow. rewrite Hthrow in Hr. simpl in Hr.
        rewrite GatewayFacts.json_error_500 in Hr. simpl in Hr.
        inversion Hr. reflexivity.
Qed.

(** A body of an OK answer that cannot be serialised is answered with 500. *)
Lemma GET_unserialisable net request t response data e :
  net (upstream_url request) = Ok response ->
  Fetch.ok response = true ->
  Fetch.json response = Ok data ->
  serialise data = Throw e ->
  exists message,
    fst (GET net request t) =
      Ok {| status := 500;
            body := error_body ("Internal Server Error: " ++ message) |}.
Proof.
  intros Hnet Hok Hjson Hser.
  unfold GET, Eff.try_catch, Eff.bind, fetch, Eff.lift, Eff.ret.
  fold (upstream_url request).
  rewrite Hnet; simpl. rewrite Hok; simpl. rewrite Hjson; simpl.
  unfold NextResponse_json at 1. rewrite Hser. simpl.
  rewrite GatewayFacts.json_error_500. simpl. eexists; reflexivity.
Qed.

(** X1. The gateway's status is one [response.ok] accepts exactly when the
    upstream answer was OK, its body parsed and could be serialised; the
    gateway then answers 200 with the body as [JSON.stringify] writes it.  A
    caller that tests [response.ok] never takes an error object for data. *)
Theorem gateway_ok_iff_passthrough net request t :
  exists r,
    fst (GET net request t) = Ok r
    /\ (ok_status (status r) = true <->
        exists response data text,
          net (upstream_url request) = Ok response
          /\ Fetch.ok response = true
          /\ Fetch.json response = Ok data
          /\ serialise data = Ok text
          /\ r = {| status := 200; body := text |}).
Proof.
  destruct (GatewayFacts.GET_returns net request t) as [r Hr].
  exists r. split; [exact Hr|].
  split.
  - intros Hstatus.
    destruct (net (upstream_url request)) as [response|e] eqn:Hnet.
    + destruct (Fetch.ok response) eqn:Hok.
      * destruct (Fetch.json response) as [data|e] eqn:Hjson.
        -- destruct (serialise data) as [text|e] eqn:Hser.
           ++ exists response, data, text. repeat split; auto.
              pose proof (GatewayFacts.GET_parsed net request t _ _ _
                            Hnet Hok Hjson Hser) as H.
              congruence.
           ++ destruct (GET_unserialisable net request t _ _ _
                          Hnet Hok Hjson Hser) as [m Hm].
              rewrite Hm in Hr. inversion Hr; subst. discriminate.
        -- rewrite (GET_failure_not_ok net request t r Hr) in Hstatus;
             [discriminate|].
           right. exists response. split; [exact Hnet | right; eauto].
      * rewrite (GET_failure_not_ok net request t r Hr) in Hstatus;
          [discriminate|].
        right. exists response. split; [exact Hnet | now left].
    + rewrite (GET_failure_not_ok net request t r Hr) in Hstatus;
        [discriminate|].
      left. eauto.
  - intros (response & data & text & _ & _ & _ & _ & ->). reflexivity.
Qed.

(** X2. Only the first value of each of the four names counts: once a request
    names all four, whatever is appended to it changes nothing upstream; and
    pairs with other names change nothing wherever they stand in front. *)
Theorem gateway_first_value_wins request extra :
  (Forall (fun name => get name request <> None) box_names ->
   upstream_url (request ++ extra)%list = upstream_url request)
  /\ (Forall (fun kv => ~ In (fst kv) box_names) extra ->
      upstream_url (extra ++ request)%list = upstream_url request).
Proof.
  split; intros H; unfold upstream_url; rewrite !get_app.
  - unfold box_names in H.
    repeat match goal with
           | H : Forall _ (_ :: _) |- _ => inversion H; clear H; subst
           end.
    cbv beta in *.
    destruct (get "lamin" request) eqn:E1; [|congruence].
    destruct (get "lomin" request) eqn:E2; [|congruence].
    destruct (get "lamax" request) eqn:E3; [|congruence].
    destruct (get "lomax" request) eqn:E4; [|congruence].
    reflexivity.
  - assert (Hf : forall name, In name box_names -> get name extra = None).
    { intros name Hin. apply get_foreign.
      eapply Forall_impl; [|exact H].
      intros kv Hkv E. apply Hkv. now rewrite E. }
    rewrite !Hf by (simpl; auto). reflexivity.
Qed.

Lemma gateway_first_value_wins_witness :
  upstream_url (Sample.box_request ++ [("lamin", "99"); ("depth", "3")])%list
  = upstream_url Sample.box_request
  /\ upstream_url ([("depth", "3")] ++ Sample.box_request)%list
     = upstream_url Sample.box_request.
Proof.
  split.
  - apply (proj1 (gateway_first_value_wins Sample.box_request
                    [("lamin", "99"); ("depth", "3")])).
    repeat constructor; discriminate.
  - apply (proj2 (gateway_first_value_wins Sample.box_request
                    [("depth", "3")])).
    repeat constructor.
    simpl. intros [H | [H | [H | [H | []]]]]; discriminate.
Defined.

(** X3. When no name occurs twice, the order of the parameters in the query
    does not matter to the upstream URL. *)
Theorem gateway_parameter_order request request' :
  NoDup (List.map fst request) ->
  Permutation request request' ->
  upstream_url request = upstream_url request'.
Proof.
  intros Hnd Hp. unfold upstream_url.
  now rewrite !(get_Permutation _ _ _ Hnd Hp).
Qed.

Lemma gateway_parameter_order_witness :
  upstream_url Sample.box_request = upstream_url (rev Sample.box_request).
Proof.
  apply gateway_parameter_order.
  - repeat constructor; simpl; intuition discriminate.
  - apply Permutation_rev.
Defined.

End GatewayMore.

(** ** More on arrays *)
Module ArrMore.

(** [.filter] throws as soon as its callback does on some element. *)
Lemma filter_throws {A} (f : A -> result bool) (l : list A) (x : A) e :
  In x l -> f x = Throw e -> exists e', Arr.filter f l = Throw e'.
Proof.
  induction l as [|y l IH]; simpl; [contradiction|].
  intros [-> | Hin] Hx; unfold Res.bind.
  - rewrite Hx. eauto.
  - destruct (f y); [|eauto].
    destruct (IH Hin Hx) as [e' ->]. eauto.
Qed.

(** [.filter] returns when its callback does on every element. *)
Lemma filter_returns {A} (f : A -> result bool) (l : list A) :
  Forall (fun x => exists b, f x = Ok b) l ->
  exists kept, Arr.filter f l = Ok kept.
Proof.
  induction 1 as [|x l [b Hb] _ [kept Hk]]; simpl; [eauto|].
  unfold Res.bind. rewrite Hb, Hk. eauto.
Qed.

(** A [.map] that returns pairs the elements with their images, in order. *)
Lemma map_Forall2 {A B} (f : A -> result B) (l : list A) (ys : list B) :
  Arr.map f l = Ok ys -> Forall2 (fun x y => f x = Ok y) l ys.
Proof.
  revert ys. induction l as [|x l IH]; simpl; intros ys H.
  - inversion H. constructor.
  - unfold Res.bind in H.
    destruct (f x) as [y|] eqn:Hfx; [|discriminate].
    destruct (Arr.map f l) as [rest|]; [|discriminate].
    inversion H; subst. constructor; auto.
Qed.

End ArrMore.

(** ** More on the transformation *)
Module FormatMore.

Import Tracker.

(** Reading an index throws exactly on [null] and [undefined]. *)
Lemma get_index_indexable state i :
  indexable state -> exists v, Js.get_index state i = Ok v.
Proof.
  intros [Hn Hu]. destruct state; simpl; eauto; congruence.
Qed.

Lemma has_position_indexable state :
  indexable state -> exists b, has_position state = Ok b.
Proof.
  intros Hi. unfold has_position, Res.bind.
  destruct (get_index_indexable state 5 Hi) as [a ->].
  destruct (get_index_indexable state 6 Hi) as [b ->].
  destruct (negb (Js.not_null a)); [eauto|].
  destruct (negb (Js.not_null b)); [eauto|].
  destruct (negb (Js.not_undefined a)); eauto.
Qed.

Lemma has_position_not_indexable state :
  ~ indexable state -> exists e, has_position state = Throw e.
Proof.
  intros Hi. destruct state; cbn; eauto;
    elim Hi; split; discriminate.
Qed.

Lemma has_position_Ok_indexable state b :
  has_position state = Ok b -> indexable state.
Proof.
  destruct state; cbn; intros H; try discriminate; split; discriminate.
Qed.

(** All the fields of a record, as [to_record] fills them. *)
Lemma to_record_shape state r :
  to_record state = Ok r ->
  exists s0 s1 s2 s3 s4 s5 s6 s7 s8 s9 s10 s11 s12 s13 s14 s15 s16 s17,
    r = {| icao24 := s0;
           callsign := Js.coalesce s1 VUndefined;
           origin_country := s2;
           time_position := Js.coalesce s3 VUndefined;
           last_contact := s4;
           longitude := s5;
           latitude := s6;
           baro_altitude := Js.coalesce s7 VUndefined;
           on_ground := s8;
           velocity := Js.coalesce s9 VUndefined;
           true_track := Js.coalesce s10 (VNum (Num.of_Z 0));
           vertical_rate := Js.coalesce s11 VUndefined;
           sensors := Js.coalesce s12 VUndefined;
           geo_altitude := Js.coalesce s13 VUndefined;
           squawk := Js.coalesce s14 VUndefined;
           spi := s15;
           position_source := s16;
           category := Js.coalesce s17 (VNum (Num.of_Z 0)) |}.
Proof.
  destruct state; unfold to_record, Res.bind; cbn [Js.get_index];
    intros H; try discriminate H;
    do 18 eexists; symmetry;
    apply (fun a b (E : Ok a = Ok b) => f_equal
             (fun x => match x with Ok y => y | Throw _ => r end) E);
    exact H.
Qed.

Lemma coalesce_not_null x d : d <> VNull -> Js.coalesce x d <> VNull.
Proof.
  intros Hd. destruct x; simpl; congruence.
Qed.

Lemma coalesce_zero_defined x :
  Js.coalesce x (VNum (Num.of_Z 0)) <> VNull
  /\ Js.coalesce x (VNum (Num.of_Z 0)) <> VUndefined.
Proof.
  destruct x; simpl; split; discriminate.
Qed.

(** X4. Given a body whose [states] is an array, the transformation returns
    exactly when no element of the array is [null] (or [undefined]): one such
    element makes it throw, whatever the other elements are. *)
Theorem format_returns_iff_indexable data elems :
  Js.get_prop data "states" = Ok (VArr elems) ->
  (exists recs, format data = Ok recs) <-> Forall indexable elems.
Proof.
  intros Hs. unfold format, Res.bind. rewrite Hs. cbn [Js.or Js.truthy].
  split.
  - intros [recs H]. apply Forall_forall. intros state Hin.
    destruct (Arr.filter has_position elems) as [kept|] eqn:Hk;
      [|discriminate].
    destruct (has_position state) as [b|e] eqn:Hp.
    + exact (has_position_Ok_indexable _ _ Hp).
    + destruct (ArrMore.filter_throws _ _ _ _ Hin Hp) as [e' He']. congruence.
  - intros Hall.
    destruct (ArrMore.filter_returns has_position elems) as [kept Hk].
    { eapply Forall_impl; [|exact Hall].
      intros state. apply has_position_indexable. }
    rewrite Hk. apply ArrFacts.map_total. apply Forall_forall.
    intros state Hin.
    destruct (ArrFacts.filter_In _ _ _ _ Hk Hin) as [_ Hp].
    exact (FormatFacts.to_record_total _ Hp).
Qed.

Lemma format_returns_iff_indexable_witness :
  (exists recs, format Sample.body = Ok recs)
  <-> Forall indexable Sample.states.
Proof.
  exact (format_returns_iff_indexable Sample.body Sample.states eq_refl).
Defined.

(** X5. The records the transformation returns are, one for one and in the
    order of the response, the records of the states that pass the filter;
    there are never more records than states. *)
Theorem format_keeps_order data elems recs :
  Js.get_prop data "states" = Ok (VArr elems) ->
  format data = Ok recs ->
  Forall2 (fun state r => to_record state = Ok r)
          (List.filter passes elems) recs
  /\ List.length recs = List.length (List.filter passes elems)
  /\ List.length recs <= List.length elems.
Proof.
  intros Hs Hf.
  pose proof (FormatFacts.format_array _ _ _ Hs Hf) as Hm.
  fold passes in Hm.
  pose proof (ArrFacts.map_length _ _ _ Hm) as Hlen.
  split; [exact (ArrMore.map_Forall2 _ _ _ Hm)|].
  split; [exact Hlen|].
  rewrite Hlen. apply List.filter_length_le.
Qed.

Lemma format_keeps_order_witness :
  exists recs,
    Forall2 (fun state r => to_record state = Ok r)
            (List.filter passes Sample.states) recs
    /\ List.length recs = List.length (List.filter passes Sample.states)
    /\ List.length recs <= List.length Sample.states.
Proof.
  eexists.
  exact (format_keeps_order Sample.body Sample.states _ eq_refl eq_refl).
Defined.

(** X6. In every record the transformation returns, [true_track] and
    [category] are neither [null] nor [undefined], and none of the optional
    fields ([callsign], [time_position], [baro_altitude], [velocity],
    [vertical_rate], [sensors], [geo_altitude], [squawk]) is [null]. *)
Theorem format_fills_defaults data recs r :
  format data = Ok recs -> In r recs ->
  (true_track r <> VNull /\ true_track r <> VUndefined)
  /\ (category r <> VNull /\ category r <> VUndefined)
  /\ callsign r <> VNull /\ time_position r <> VNull
  /\ baro_altitude r <> VNull /\ velocity r <> VNull
  /\ vertical_rate r <> VNull /\ sensors r <> VNull
  /\ geo_altitude r <> VNull /\ squawk r <> VNull.
Proof.
  intros Hf Hin.
  destruct (FormatFacts.format_records _ _ _ Hf Hin)
    as (_ & elems & state & _ & _ & _ & Hr).
  destruct (to_record_shape _ _ Hr)
    as (s0 & s1 & s2 & s3 & s4 & s5 & s6 & s7 & s8 & s9 & s10 & s11 & s12
        & s13 & s14 & s15 & s16 & s17 & ->).
  cbn [true_track category callsign time_position baro_altitude velocity
       vertical_rate sensors geo_altitude squawk].
  split; [apply coalesce_zero_defined|].
  split; [apply coalesce_zero_defined|].
  repeat split; apply coalesce_not_null; discriminate.
Qed.

Lemma format_fills_defaults_witness :
  (true_track Sample.parked_record <> VNull
   /\ true_track Sample.parked_record <> VUndefined)
  /\ (category Sample.parked_record <> VNull
      /\ category Sample.parked_record <> VUndefined)
  /\ callsign Sample.parked_record <> VNull
  /\ time_position Sample.parked_record <> VNull
  /\ baro_altitude Sample.parked_record <> VNull
  /\ velocity Sample.parked_record <> VNull
  /\ vertical_rate Sample.parked_record <> VNull
  /\ sensors Sample.parked_record <> VNull
  /\ geo_altitude Sample.parked_record <> VNull
  /\ squawk Sample.parked_record <> VNull.
Proof.
  apply (format_fills_defaults Sample.body
           [Sample.airborne_record; Sample.parked_record]);
    [reflexivity | right; left; reflexivity].
Defined.

End FormatMore.

(** ** More on the fetch cycle *)
Module TrackerMore.

Import Tracker.

(** X7. The zoom threshold lets through exactly the zooms that are 7 or more,
    and NaN, which is below nothing. *)
Theorem zoom_threshold_admits z :
  zoom_too_low (Some z) = false
  <-> Num.le (Num.of_Z 7) z = true \/ Num.is_nan z = true.
Proof.
  unfold zoom_too_low, Num.lt, Num.le, SFltb, SFleb.
  rewrite (NumFacts.compare_antisym (Num.of_Z 7) z).
  destruct (SFcompare (Num.of_Z 7) z) as [c|] eqn:Hc.
  - assert (Hn : Num.is_nan z = false).
    { destruct (Num.is_nan z) eqn:E; [|reflexivity].
      assert (SFcompare (Num.of_Z 7) z = None) as Hnone
        by (apply NumMore.compare_None; now right).
      congruence. }
    rewrite Hn. destruct c; simpl; split; auto;
      intros [H | H]; discriminate.
  - apply NumMore.compare_None in Hc. destruct Hc as [H | H];
      [discriminate|].
    simpl. split; auto.
Qed.

Section Cycle.

Variable number_to_string : number -> string.

Ltac run_fetchData :=
  unfold fetchData, Eff.try_catch, Eff.bind, fetch,
    console_error, setAircraftData, Eff.modify, Eff.lift, Eff.ret.

(** What a cycle that queries stores does not depend on the state it
    started from. *)
Lemma fetchData_set_independent net m bounds s1 s2 :
  zoom_too_low (getZoom m) = false ->
  getBounds m = Some bounds ->
  aircraftData (snd (fetchData number_to_string net (Some m) s1))
  = aircraftData (snd (fetchData number_to_string net (Some m) s2)).
Proof.
  intros Hz Hb. run_fetchData. rewrite Hz, Hb.
  destruct (net _) as [response|]; simpl; [|reflexivity].
  destruct (Fetch.ok response); simpl; [|reflexivity].
  destruct (Fetch.json response) as [data|]; simpl; [|reflexivity].
  destruct (format data); reflexivity.
Qed.

(** X8. The set is replaced wholesale: what a cycle that queries stores does
    not depend on what was stored before, and running any cycle a second
    time on the same answers leaves the set as the first run left it. *)
Theorem cycle_replaces_wholesale net currentMap s :
  (forall m bounds s',
      currentMap = Some m ->
      zoom_too_low (getZoom m) = false ->
      getBounds m = Some bounds ->
      aircraftData (snd (fetchData number_to_string net currentMap s))
      = aircraftData (snd (fetchData number_to_string net currentMap s')))
  /\ aircraftData
       (snd (fetchData number_to_string net currentMap
               (snd (fetchData number_to_string net currentMap s))))
     = aircraftData (snd (fetchData number_to_string net currentMap s)).
Proof.
  split.
  - intros m bounds s' -> Hz Hb.
    exact (fetchData_set_independent net m bounds s s' Hz Hb).
  - destruct currentMap as [m|]; [|reflexivity].
    destruct (zoom_too_low (getZoom m)) eqn:Hz.
    + rewrite !TrackerFacts.fetchData_gated by exact Hz. reflexivity.
    + destruct (getBounds m) as [bounds|] eqn:Hb.
      * exact (fetchData_set_independent net m bounds _ s Hz Hb).
      * rewrite !TrackerFacts.fetchData_no_bounds by assumption.
        reflexivity.
Qed.

(** X9. A cycle that queries writes one line to the console for each way it
    can fail, naming the cause (the rejection, the status text, the parse
    error, the error of the transformation), and writes nothing when it
    succeeds. *)
Theorem cycle_logs_its_failure net m bounds s :
  zoom_too_low (getZoom m) = false ->
  getBounds m = Some bounds ->
  let url := states_url number_to_string (box_of bounds) in
  let after := console (snd (fetchData number_to_string net (Some m) s)) in
  (forall e,
      net url = Throw e ->
      after
      = (console s ++ [("Error fetching aircraft data:", LogThrown e)])%list)
  /\ (forall response,
         net url = Ok response -> Fetch.ok response = false ->
         after
         = (console s ++ [("Failed to fetch aircraft data:",
                           LogText (Fetch.statusText response))])%list)
  /\ (forall response e,
         net url = Ok response -> Fetch.ok response = true ->
         Fetch.json response = Throw e ->
         after
         = (console s ++ [("Error fetching aircraft data:", LogThrown e)])%list)
  /\ (forall response data e,
         net url = Ok response -> Fetch.ok response = true ->
         Fetch.json response = Ok data -> format data = Throw e ->
         after
         = (console s ++ [("Error fetching aircraft data:", LogThrown e)])%list)
  /\ (forall response data recs,
         net url = Ok response -> Fetch.ok response = true ->
         Fetch.json response = Ok data -> format data = Ok recs ->
         after = console s).
Proof.
  intros Hz Hb url after. subst after. run_fetchData. rewrite Hz, Hb.
  fold (box_of bounds). fold url.
  repeat apply conj.
  - intros e ->. reflexivity.
  - intros response -> Hok. simpl. now rewrite Hok.
  - intros response e -> Hok Hj. simpl. rewrite Hok. simpl. now rewrite Hj.
  - intros response data e -> Hok Hj Hf. simpl. rewrite Hok. simpl.
    rewrite Hj. simpl. now rewrite Hf.
  - intros response data recs -> Hok Hj Hf. simpl. rewrite Hok. simpl.
    rewrite Hj. simpl. now rewrite Hf.
Qed.

(** X10. One [null] among the states of an OK response costs the whole
    response: the cycle stores the empty set and logs the error, however
    many well-formed states came with it. *)
Theorem null_state_discards_all net m bounds response data elems s :
  zoom_too_low (getZoom m) = false ->
  getBounds m = Some bounds ->
  net (states_url number_to_string (box_of bounds)) = Ok response ->
  Fetch.ok response = true ->
  Fetch.json response = Ok data ->
  Js.get_prop data "states" = Ok (VArr elems) ->
  In VNull elems ->
  aircraftData (snd (fetchData number_to_string net (Some m) s)) = []
  /\ exists e,
       console (snd (fetchData number_to_string net (Some m) s))
       = (console s ++ [("Error fetching aircraft data:", LogThrown e)])%list.
Proof.
  intros Hz Hb Hnet Hok Hj Hs Hin.
  assert (Hf : exists e, format data = Throw e).
  { unfold format, Res.bind. rewrite Hs. cbn [Js.or Js.truthy].
    destruct (ArrMore.filter_throws has_position elems VNull
                (Js.cannot_read "null") Hin eq_refl) as [e ->].
    eauto. }
  destruct Hf as [e Hf].
  run_fetchData. rewrite Hz, Hb. fold (box_of bounds). rewrite Hnet. simpl.
  rewrite Hok. simpl. rewrite Hj. simpl. rewrite Hf. simpl.
  split; [reflexivity | eauto].
Qed.

End Cycle.

Lemma cycle_replaces_wholesale_witness :
  aircraftData
    (snd (fetchData Sample.number_to_string
            (Sample.answering (Sample.with_body Sample.body))
            (Some (Sample.map_at 7)) Sample.stale))
  = aircraftData
      (snd (fetchData Sample.number_to_string
              (Sample.answering (Sample.with_body Sample.body))
              (Some (Sample.map_at 7)) initial)).
Proof.
  exact (proj1 (cycle_replaces_wholesale Sample.number_to_string
                  (Sample.answering (Sample.with_body Sample.body))
                  (Some (Sample.map_at 7)) Sample.stale)
               (Sample.map_at 7) Sample.bounds initial
               eq_refl eq_refl eq_refl).
Defined.

Lemma cycle_logs_its_failure_witness :
  console
    (snd (fetchData Sample.number_to_string
            (Sample.answering Sample.unavailable)
            (Some (Sample.map_at 7)) Sample.stale))
  = [("Failed to fetch aircraft data:", LogText "Service Unavailable")].
Proof.
  pose proof (cycle_logs_its_failure Sample.number_to_string
                (Sample.answering Sample.unavailable)
                (Sample.map_at 7) Sample.bounds Sample.stale
                eq_refl eq_refl) as (_ & H & _).
  exact (H Sample.unavailable eq_refl eq_refl).
Defined.

Lemma null_state_discards_all_witness :
  aircraftData
    (snd (fetchData Sample.number_to_string
            (Sample.answering (Sample.with_body Sample.holed_body))
            (Some (Sample.map_at 7)) Sample.stale)) = []
  /\ exists e,
       console
         (snd (fetchData Sample.number_to_string
                 (Sample.answering (Sample.with_body Sample.holed_body))
                 (Some (Sample.map_at 7)) Sample.stale))
       = (console Sample.stale
          ++ [("Error fetching aircraft data:", LogThrown e)])%list.
Proof.
  apply (null_state_discards_all Sample.number_to_string
           (Sample.answering (Sample.with_body Sample.holed_body))
           (Sample.map_at 7) Sample.bounds
           (Sample.with_body Sample.holed_body) Sample.holed_body
           [Sample.airborne; VNull; Sample.parked] Sample.stale);
    try reflexivity.
  right; left; reflexivity.
Defined.

End TrackerMore.

(** ** Handlers one after another *)
Module ComponentFacts.

Import Tracker Component.

Section Run.

Variable number_to_string : number -> string.

(** A cycle adds at most one request and at most one console line, after
    those already there. *)
Lemma fetchData_appends net currentMap s :
  exists more logs,
    requests (snd (fetchData number_to_string net currentMap s))
    = (requests s ++ more)%list
    /\ console (snd (fetchData number_to_string net currentMap s))
       = (console s ++ logs)%list
    /\ List.length more <= 1 /\ List.length logs <= 1.
Proof.
  unfold fetchData, Eff.try_catch, Eff.bind, fetch,
    console_error, setAircraftData, Eff.modify, Eff.lift, Eff.ret.
  destruct currentMap as [m|];
    [|exists [], []; rewrite !app_nil_r; auto].
  destruct (zoom_too_low (getZoom m));
    [exists [], []; rewrite !app_nil_r; simpl; auto|].
  destruct (getBounds m) as [bounds|];
    [|exists [], []; rewrite !app_nil_r; auto].
  destruct (net _) as [response|]; simpl;
    [|eexists [_], [_]; simpl; auto].
  destruct (Fetch.ok response); simpl;
    [|eexists [_], [_]; simpl; auto].
  destruct (Fetch.json response) as [data|]; simpl;
    [|eexists [_], [_]; simpl; auto].
  destruct (format data); simpl.
  - eexists [_], []. rewrite app_nil_r. simpl. auto.
  - eexists [_], [_]; simpl; auto.
Qed.

Lemma handle_returns e s : fst (handle number_to_string e s) = Ok tt.
Proof.
  destruct e as [net currentMap | net [m|]];
    unfold handle, onMapLoad, onMapIdle;
    try apply TrackerFacts.fetchData_returns.
  reflexivity.
Qed.

Lemma handle_positioned e s :
  Forall positioned (aircraftData s) ->
  Forall positioned (aircraftData (snd (handle number_to_string e s))).
Proof.
  destruct e as [net currentMap | net [m|]];
    unfold handle, onMapLoad, onMapIdle;
    try apply TrackerFacts.fetchData_positioned.
  auto.
Qed.

Lemma handle_appends e s :
  exists more logs,
    requests (snd (handle number_to_string e s)) = (requests s ++ more)%list
    /\ console (snd (handle number_to_string e s)) = (console s ++ logs)%list
    /\ List.length more <= 1 /\ List.length logs <= 1.
Proof.
  destruct e as [net currentMap | net [m|]];
    unfold handle, onMapLoad, onMapIdle;
    try apply fetchData_appends.
  exists [], []. rewrite !app_nil_r. auto.
Qed.

Lemma run_cons e rest s :
  run number_to_string (e :: rest) s
  = run number_to_string rest (snd (handle number_to_string e s)).
Proof.
  simpl. unfold Eff.bind.
  pose proof (handle_returns e s) as H.
  destruct (handle number_to_string e s) as [r s']. simpl in *.
  now subst r.
Qed.

(** X11. However many times and in whatever order [onMapLoad] and [onMapIdle]
    are called, with whatever maps and network answers, no call throws and,
    starting from the empty set, every record on display has a position. *)
Theorem handlers_never_throw_and_keep_positions events :
  fst (run number_to_string events initial) = Ok tt
  /\ Forall positioned
       (aircraftData (snd (run number_to_string events initial))).
Proof.
  assert (H : forall s,
             Forall positioned (aircraftData s) ->
             fst (run number_to_string events s) = Ok tt
             /\ Forall positioned
                  (aircraftData (snd (run number_to_string events s)))).
  { induction events as [|e rest IH]; intros s Hs.
    - split; [reflexivity | exact Hs].
    - rewrite run_cons. apply IH. now apply handle_positioned. }
  apply H. constructor.
Qed.

(** X12. Handler calls issue at most one request each and write at most one
    console line each, and never drop or reorder the requests and lines that
    were there. *)
Theorem handlers_request_at_most_once events s :
  exists more logs,
    requests (snd (run number_to_string events s)) = (requests s ++ more)%list
    /\ console (snd (run number_to_string events s))
       = (console s ++ logs)%list
    /\ List.length more <= List.length events
    /\ List.length logs <= List.length events.
Proof.
  revert s. induction events as [|e rest IH]; intros s.
  - exists [], []. rewrite !app_nil_r. simpl. auto.
  - rewrite run_cons.
    destruct (handle_appends e s) as (m1 & l1 & Hr1 & Hc1 & Hm1 & Hl1).
    destruct (IH (snd (handle number_to_string e s)))
      as (m2 & l2 & Hr2 & Hc2 & Hm2 & Hl2).
    exists (m1 ++ m2)%list, (l1 ++ l2)%list.
    rewrite Hr2, Hc2, Hr1, Hc1, <- !app_assoc, !length_app. simpl.
    repeat split; lia.
Qed.

End Run.

End ComponentFacts.

(** ** More on the icon layer *)
Module RendererMore.

Import Tracker Renderer.

Lemma or_zero_usable v : usable (Js.or v (VNum (Num.of_Z 0))).
Proof.
  unfold Js.or. destruct (Js.truthy v) eqn:Ht.
  - repeat split; intros ->; simpl in Ht; discriminate.
  - repeat split; discriminate.
Qed.

(** [v || 0] is [v] when [v] is truthy and the number 0 when it is falsy. *)
Lemma or_zero_cases v :
  (Js.truthy v = true /\ Js.or v (VNum (Num.of_Z 0)) = v)
  \/ (Js.truthy v = false
      /\ Js.or v (VNum (Num.of_Z 0)) = VNum (Num.of_Z 0)).
Proof.
  unfold Js.or. destruct (Js.truthy v); auto.
Qed.

(** [truthy] is false exactly on the falsy values. *)
Lemma falsy_values v : Js.truthy v = false <-> falsy v.
Proof.
  unfold falsy. split.
  - destruct v as [| |[|]|[s|s| |s m e]|s| |]; simpl; intros H;
      try discriminate; auto 6.
    + right; right; right; left. eauto.
    + destruct s; [auto 7 | discriminate].
  - intros [-> | [-> | [-> | [[s ->] | [-> | ->]]]]]; reflexivity.
Qed.

Lemma or_zero_falsy v :
  falsy v -> Js.or v (VNum (Num.of_Z 0)) = VNum (Num.of_Z 0).
Proof.
  intros H. apply falsy_values in H.
  destruct (or_zero_cases v) as [[Ht _] | [_ E]]; [congruence | exact E].
Qed.

Lemma or_zero_not_falsy v : ~ falsy v -> Js.or v (VNum (Num.of_Z 0)) = v.
Proof.
  intros H. destruct (or_zero_cases v) as [[_ E] | [Ht _]]; [exact E|].
  apply falsy_values in Ht. contradiction.
Qed.

(** X13. Whatever a record holds, absent or malformed coordinates included,
    each component of the position handed to the layer is the number 0 when
    the field is falsy ([undefined], [null], [false], a zero, NaN or the
    empty string) and the field itself otherwise; so no component is
    [undefined], [null] or NaN. *)
Theorem position_always_usable d :
  let lon := fst (fst (getPosition d)) in
  let la := snd (fst (getPosition d)) in
  let alt := snd (getPosition d) in
  (usable lon /\ usable la /\ usable alt)
  /\ (falsy (longitude d) -> lon = VNum (Num.of_Z 0))
  /\ (~ falsy (longitude d) -> lon = longitude d)
  /\ (falsy (latitude d) -> la = VNum (Num.of_Z 0))
  /\ (~ falsy (latitude d) -> la = latitude d)
  /\ (falsy (baro_altitude d) -> alt = VNum (Num.of_Z 0))
  /\ (~ falsy (baro_altitude d) -> alt = baro_altitude d).
Proof.
  unfold getPosition. cbn [fst snd]. cbv zeta.
  split; [repeat split; apply or_zero_usable|].
  repeat split; intros H;
    first [exact (or_zero_falsy _ H) | exact (or_zero_not_falsy _ H)].
Qed.

Lemma position_always_usable_witness :
  snd (getPosition Sample.parked_record) = VNum (Num.of_Z 0)
  /\ fst (fst (getPosition Sample.parked_record)) = Sample.num 140.
Proof.
  pose proof (position_always_usable Sample.parked_record)
    as (_ & _ & Hlon & _ & _ & Halt & _).
  split.
  - apply Halt. left. reflexivity.
  - apply Hlon. unfold falsy.
    intros [H | [H | [H | [[s H] | [H | H]]]]]; discriminate.
Defined.

(** X14. Whatever [on_ground] holds, the icon gets one of two styles, size
    and colour together: size 10 with the red colour, or size 20 with the
    green one; the layer never sees a size of one style with the colour of
    the other.  [on_ground] missing counts as airborne. *)
Theorem icon_style_is_one_of_two d :
  ((getSize d = 10%Z /\ getColor d = [255; 0; 0; 200]%Z)
   \/ (getSize d = 20%Z /\ getColor d = [0; 255; 0; 200]%Z))
  /\ (getSize d = 10%Z <-> Js.truthy (on_ground d) = true)
  /\ (on_ground d = VUndefined -> getSize d = 20%Z).
Proof.
  unfold getSize, getColor.
  split; [|split].
  - destruct (Js.truthy (on_ground d)); auto.
  - destruct (Js.truthy (on_ground d)); split; auto; discriminate.
  - intros ->. reflexivity.
Qed.

Lemma whole_degrees_checked : forallb angle_exact_at whole_degrees = true.
Proof. vm_compute. reflexivity. Qed.

Lemma whole_degrees_In h : (0 <= h <= 360)%Z -> In h whole_degrees.
Proof.
  intros Hh. unfold whole_degrees.
  replace h with (Z.of_nat (Z.to_nat h)) by lia.
  apply in_map. apply in_seq. lia.
Qed.

(** X15. For every whole-degree heading from 0 to 360 the angle is exactly
    the number [90 - heading]: the floating-point sum rounds nothing. *)
Theorem whole_degree_angles_exact d h :
  (0 <= h <= 360)%Z ->
  true_track d = VNum (Num.of_Z h) ->
  getAngle d = Some (Num.of_Z (90 - h)).
Proof.
  intros Hh Ht.
  pose proof whole_degrees_checked as Hall.
  rewrite forallb_forall in Hall.
  specialize (Hall h (whole_degrees_In h Hh)).
  unfold angle_exact_at in Hall. apply andb_prop in Hall.
  destruct Hall as [Hnan Heq].
  apply negb_true_iff in Hnan. apply NumMore.number_eqb_eq in Heq.
  unfold getAngle. rewrite Ht.
  destruct (NumFacts.neg_or_zero_add _ Hnan) as (x & -> & Hx).
  now rewrite Hx, Heq.
Qed.

Lemma whole_degree_angles_exact_witness :
  getAngle Sample.airborne_record = Some (Num.of_Z 0).
Proof.
  apply (whole_degree_angles_exact Sample.airborne_record 90);
    [lia | reflexivity].
Defined.

(** X16. From a parsed state to its icon: the record of a state whose index
    10 is a number [h] is drawn at [-h + 90], that of a state whose index 10
    is [null] or missing is drawn at 90; and when indexes 5 and 6 are
    numbers the icon is placed at them ([===]). *)
Theorem parsed_state_to_icon state r :
  is_json state = true ->
  to_record state = Ok r ->
  exists s10,
    Js.get_index state 10 = Ok s10
    /\ (nullish s10 -> getAngle r = Some (Num.of_Z 90))
    /\ (forall h, s10 = VNum h ->
          getAngle r = Some (Num.add (Num.neg h) (Num.of_Z 90)))
    /\ (forall lon la,
          Js.get_index state 5 = Ok (VNum lon) ->
          Js.get_index state 6 = Ok (VNum la) ->
          exists x y,
            fst (getPosition r) = (VNum x, VNum y)
            /\ same_number x lon /\ same_number y la).
Proof.
  intros Hj Hr.
  destruct (FormatFacts.to_record_fields _ _ Hr)
    as (H5 & H6 & _ & (s10 & H10 & Ht) & _).
  pose proof (fun i x H =>
                FormatFacts.json_not_nan x
                  (FormatFacts.get_index_json state i x Hj H)) as Hn.
  exists s10. split; [exact H10|]. split; [|split].
  - intros [-> | ->]; unfold getAngle; rewrite Ht; reflexivity.
  - intros h ->. unfold getAngle. rewrite Ht. cbn [Js.coalesce].
    destruct (NumFacts.neg_or_zero_add h (Hn _ _ H10 h eq_refl))
      as (x & -> & Hx).
    now rewrite Hx.
  - intros lon la H5' H6'.
    rewrite H5 in H5'. rewrite H6 in H6'.
    inversion H5' as [Hlon]. inversion H6' as [Hla].
    unfold getPosition. cbn [fst]. rewrite Hlon, Hla.
    destruct (NumFacts.or_zero_same lon) as (x & -> & Hx).
    { apply (Hn 5 (VNum lon)); [congruence | reflexivity]. }
    destruct (NumFacts.or_zero_same la) as (y & -> & Hy).
    { apply (Hn 6 (VNum la)); [congruence | reflexivity]. }
    exists x, y. auto.
Qed.

Lemma parsed_state_to_icon_witness :
  exists s10,
    Js.get_index Sample.parked 10 = Ok s10
    /\ (nullish s10 -> getAngle Sample.parked_record = Some (Num.of_Z 90))
    /\ (forall h, s10 = VNum h ->
          getAngle Sample.parked_record
          = Some (Num.add (Num.neg h) (Num.of_Z 90)))
    /\ (forall lon la,
          Js.get_index Sample.parked 5 = Ok (VNum lon) ->
          Js.get_index Sample.parked 6 = Ok (VNum la) ->
          exists x y,
            fst (getPosition Sample.parked_record) = (VNum x, VNum y)
            /\ same_number x lon /\ same_number y la).
Proof.
  exact (parsed_state_to_icon Sample.parked Sample.parked_record
           eq_refl eq_refl).
Defined.

End RendererMore.

(** ** The mirrored view state *)
Module ViewFacts.

Import View.

Lemma onBoundsChanged_flat map v :
  pitch v = Num.of_Z 0 /\ bearing v = Num.of_Z 0 ->
  pitch (onBoundsChanged map v) = Num.of_Z 0
  /\ bearing (onBoundsChanged map v) = Num.of_Z 0.
Proof.
  intros Hv. unfold onBoundsChanged.
  destruct map as [m|]; [|exact Hv].
  destruct (getZoom m), (getCenter m); auto.
Qed.

(** X17. The overlay is never tilted or turned: after any sequence of
    [bounds_changed] events, starting from the initial view state, pitch and
    bearing are 0. *)
Theorem view_stays_flat maps :
  pitch (after_bounds_changes maps initialViewState) = Num.of_Z 0
  /\ bearing (after_bounds_changes maps initialViewState) = Num.of_Z 0.
Proof.
  unfold after_bounds_changes.
  assert (H : forall v,
             pitch v = Num.of_Z 0 /\ bearing v = Num.of_Z 0 ->
             pitch (fold_left (fun v map => onBoundsChanged map v) maps v)
             = Num.of_Z 0
             /\ bearing (fold_left (fun v map => onBoundsChanged map v) maps v)
                = Num.of_Z 0).
  { induction maps as [|map maps IH]; intros v Hv; simpl; [exact Hv|].
    apply IH. now apply onBoundsChanged_flat. }
  apply H. split; reflexivity.
Qed.

(** X18. The view state mirrors the widget's latest answer: after an event
    at which the widget gives a zoom and a centre, the view state is that
    centre and zoom, whatever the events before it were. *)
Theorem view_mirrors_latest maps m z c v :
  getZoom m = Some z ->
  getCenter m = Some c ->
  after_bounds_changes (maps ++ [Some m]) v
  = {| longitude := Tracker.lng c;
       latitude := Tracker.lat c;
       zoom := z;
       pitch := Num.of_Z 0;
       bearing := Num.of_Z 0 |}.
Proof.
  intros Hz Hc. unfold after_bounds_changes.
  rewrite fold_left_app. simpl. unfold onBoundsChanged.
  now rewrite Hz, Hc.
Qed.

Lemma view_mirrors_latest_witness :
  after_bounds_changes [None; Some Sample.uncentred; Some Sample.osaka]
    initialViewState
  = {| longitude := Num.of_Z 135;
       latitude := Num.of_Z 35;
       zoom := Num.of_Z 9;
       pitch := Num.of_Z 0;
       bearing := Num.of_Z 0 |}.
Proof.
  exact (view_mirrors_latest [None; Some Sample.uncentred] Sample.osaka
           _ _ initialViewState eq_refl eq_refl).
Defined.

(** X19. The listener the effect registers and the [onBoundsChanged] prop do
    the same thing to the view state, and doing it twice is doing it once:
    both firing on one event is harmless.  Without the [map] state, without
    a zoom or without a centre, the view state is left as it was. *)
Theorem view_listeners_agree map v :
  (forall m, map = Some m ->
        bounds_changed_listener m v = onBoundsChanged map v)
  /\ onBoundsChanged map (onBoundsChanged map v) = onBoundsChanged map v
  /\ (map = None
      \/ (exists m, map = Some m
                    /\ (getZoom m = None \/ getCenter m = None)) ->
      onBoundsChanged map v = v).
Proof.
  split; [|split].
  - intros m ->. reflexivity.
  - unfold onBoundsChanged. destruct map as [m|]; [|reflexivity].
    destruct (getZoom m), (getCenter m); reflexivity.
  - intros [-> | (m & -> & [H | H])]; unfold onBoundsChanged;
      [reflexivity | now rewrite H |].
    rewrite H. now destruct (getZoom m).
Qed.

Lemma view_listeners_agree_witness :
  bounds_changed_listener Sample.osaka initialViewState
  = onBoundsChanged (Some Sample.osaka) initialViewState
  /\ onBoundsChanged (Some Sample.uncentred) initialViewState
     = initialViewState.
Proof.
  split.
  - exact (proj1 (view_listeners_agree (Some Sample.osaka) initialViewState)
                 Sample.osaka eq_refl).
  - apply (proj2 (proj2 (view_listeners_agree (Some Sample.uncentred)
                           initialViewState))).
    right. exists Sample.uncentred. split; [reflexivity | now right].
Defined.

(** The two literals of [initialCenter], as binary64 numbers. *)
Example initialCenter_numbers :
  initialCenter
  = {| Tracker.lat := S754_finite false 5021687536053710 (-47);
       Tracker.lng := S754_finite false 4917618531786293 (-45) |}.
Proof. reflexivity. Qed.

End ViewFacts.

(** ** What is rendered *)
Module PageFacts.

Import Page.

(** X20. The map and its overlay are rendered exactly when there is no load
    error, the script is loaded and the API key is a non-empty string; they
    then get the current aircraft set and view state.  A load error is shown
    whatever the other two say. *)
Theorem map_needs_key_and_script loadError isLoaded API_KEY data viewState :
  ((exists d v z c,
       render loadError isLoaded API_KEY data viewState = MapView d v z c)
   <-> loadError = None /\ isLoaded = true
       /\ exists key, API_KEY = Some key /\ key <> "")
  /\ (forall d v z c,
         render loadError isLoaded API_KEY data viewState = MapView d v z c ->
         d = data /\ v = viewState /\ z = View.zoom viewState
         /\ c = View.initialCenter)
  /\ (forall message,
         loadError = Some message ->
         render loadError isLoaded API_KEY data viewState
         = LoadErrorMessage message).
Proof.
  unfold render. split; [|split].
  - split.
    + intros (d & v & z & c & H).
      destruct loadError; [discriminate|].
      destruct isLoaded; [|discriminate].
      destruct API_KEY as [key|]; [|discriminate].
      simpl in H. destruct (String.eqb key "") eqn:E; [discriminate|].
      apply String.eqb_neq in E. repeat split. eauto.
    + intros (-> & -> & key & -> & Hkey).
      apply String.eqb_neq in Hkey. simpl. rewrite Hkey. simpl.
      do 4 eexists. reflexivity.
  - intros d v z c H.
    destruct loadError; [discriminate|].
    destruct (negb isLoaded || negb (Js.truthy (env API_KEY)));
      [discriminate|].
    inversion H. auto.
  - intros message ->. reflexivity.
Qed.

End PageFacts.

(** ** The tracker behind the gateway *)
Module EndToEnd.

Import Tracker.

(** When upstream fails, the status the gateway answers with is not one
    [response.ok] accepts. *)
Lemma gateway_failure_status upstream request t r :
  fst (Gateway.GET upstream request t) = Ok r ->
  (exists e, upstream (upstream_url request) = Throw e)
  \/ (exists response,
         upstream (upstream_url request) = Ok response
         /\ (Fetch.ok response = false
             \/ exists e, Fetch.json response = Throw e)) ->
  ok_status (Gateway.status r) = false.
Proof.
  exact (GatewayMore.GET_failure_not_ok upstream request t r).
Qed.

(** X21. Upstream trouble empties the display: when the upstream request is
    rejected, answered with a status that is not OK, or answered with a body
    that does not parse, a tracker cycle that receives a response carrying
    the gateway's status stores the empty set. *)
Theorem upstream_failure_clears_display
    upstream request t r number_to_string net m bounds response s :
  fst (Gateway.GET upstream request t) = Ok r ->
  (exists e, upstream (upstream_url request) = Throw e)
  \/ (exists answer,
         upstream (upstream_url request) = Ok answer
         /\ (Fetch.ok answer = false
             \/ exists e, Fetch.json answer = Throw e)) ->
  zoom_too_low (getZoom m) = false ->
  getBounds m = Some bounds ->
  net (states_url number_to_string (box_of bounds)) = Ok response ->
  Fetch.status response = Gateway.status r ->
  aircraftData (snd (fetchData number_to_string net (Some m) s)) = [].
Proof.
  intros Hr Hfail Hz Hb Hnet Hstatus.
  apply (TrackerFacts.fetchData_failed number_to_string net m bounds s Hz Hb).
  right. exists response. split; [exact Hnet|].
  unfold Fetch.ok. rewrite Hstatus.
  exact (gateway_failure_status _ _ _ _ Hr Hfail).
Qed.

Lemma upstream_failure_clears_display_witness :
  aircraftData
    (snd (fetchData Sample.number_to_string
            (Sample.answering
               {| Fetch.status := 500;
                  Fetch.statusText := "Internal Server Error";
                  Fetch.json :=
                    Ok (VObj [("error",
                               VStr "Internal Server Error: fetch failed")]) |})
            (Some (Sample.map_at 7)) Sample.stale)) = [].
Proof.
  apply (upstream_failure_clears_display
           Sample.rejecting Sample.box_request []
           {| Gateway.status := 500;
              Gateway.body :=
                VObj [("error", VStr "Internal Server Error: fetch failed")] |}
           Sample.number_to_string _ (Sample.map_at 7) Sample.bounds
           {| Fetch.status := 500;
              Fetch.statusText := "Internal Server Error";
              Fetch.json :=
                Ok (VObj [("error",
                           VStr "Internal Server Error: fetch failed")]) |}
           Sample.stale);
    try reflexivity.
  left. eexists. reflexivity.
Defined.

End EndToEnd.
